(** * ZIP Football Calculator: the probabilistic engine of [script.js]

    A shallow embedding of the calculation core of the two script variants
    (the "dutching" variant with one margin per period, and the older
    variant with a single global margin), and the properties of the engine
    stated in the specification.

    Numbers.  A JavaScript number is an IEEE 754 binary64 value, and the
    engine is embedded twice.

    In the first part of the file a number is a real number of the
    Standard Library: [+], [-], [*] and [/] are the exact field operations,
    [Math.exp] is [exp] and [Math.pow] with a loop counter as exponent is
    [pow].  This reading has no rounding, no infinities and no NaN.  It is
    used for the properties that do not depend on them: which branch is
    taken, which cells are visited and in which order, which keys, buckets
    and groups exist and what they collect, what is read and what is
    written.  The comparisons the code makes on numbers ([===], [<=], [>])
    are there the decidable comparisons of [R].

    In the module [Binary64] the calculation core is embedded again,
    statement by statement, over the binary64 numbers of the kernel.  The
    properties whose content is an equation between computed numbers are
    stated there, and the inputs on which an equation of exact arithmetic
    fails for the program are computed there.

    Goal lines (0.5, 1.5, ...) are only ever compared with integer goal
    totals and used as object keys; they are kept as rationals so that both
    uses compute. *)

From Stdlib Require Import Reals Lra Lia ZArith QArith Ascii Sorted.
From Stdlib Require Import Floats.
From Stdlib Require Uint63.
From stdpp Require Import gmap strings list fin_maps pretty.

#[local] Open Scope R_scope.
#[local] Set Warnings "-inexact-float".

(** ** JavaScript numbers, arrays and loops *)

#[global] Instance R_inhabited : Inhabited R := populate 0.
#[global] Instance R_eq_dec : EqDecision R := Req_dec_T.
#[global] Instance Rle_decision (x y : R) : Decision (x <= y) := Rle_dec x y.
#[global] Instance Rlt_decision (x y : R) : Decision (x < y) := Rlt_dec x y.

(** [for (let k = 0; k <= n; k++)]: the counter values, in order. *)
Definition upto (n : Z) : list nat := seq 0 (Z.to_nat (n + 1)).

(** [for (let k = 0; k < n; k++)]. *)
Definition below (n : nat) : list nat := seq 0 n.

(** [for (let i = lo; i <= hi; i++)] on integers. *)
Definition fromTo (lo hi : Z) : list Z := seqZ lo (hi - lo + 1).

(** Running a loop body over the counter values, threading the variables
    the body assigns. *)
Definition forEach {A S : Type} (xs : list A) (body : A -> S -> S) (s : S) : S :=
  fold_left (fun s x => body x s) xs s.

(** [arr[i] = x].  Writing at an index of the array replaces the element,
    writing at [arr.length] appends; the loops of the engine never write
    further out (that would leave holes, which have no counterpart here). *)
Definition arraySet {A : Type} (arr : list A) (i : nat) (x : A) : list A :=
  if decide (i < length arr)%nat then <[i := x]> arr else arr ++ [x].

(** [probs.reduce((a, b) => a + b, 0)]. *)
Definition reduceSum (probs : list R) : R := fold_left Rplus probs 0.

(** The mathematical sum of a sequence and of a grid: what the
    specification writes as a capital sigma. *)
Definition Rsum (l : list R) : R := foldr Rplus 0 l.

Definition gridSum (m : list (list R)) : R := Rsum (Rsum <$> m).

#[global] Arguments Rsum : simpl never.
#[global] Arguments gridSum : simpl never.

(** ** Math model *)

Definition factorialCache : list R := [1; 1; 2; 6; 24; 120; 720; 5040].

(** [factorial] with exact products.  On the program's numbers the
    running product is rounded from 23 on: see [Binary64.factorial]. *)
Definition factorial (n : Z) : R :=
  if decide (n < 0)%Z then 1
  else if decide (n < Z.of_nat (length factorialCache))%Z
       then factorialCache !!! Z.to_nat n
       else
         let res := factorialCache !!! (length factorialCache - 1)%nat in
         forEach (fromTo (Z.of_nat (length factorialCache)) n)
                 (fun i res => res * IZR i) res.

Record PMF : Type := { probs : list R; tail : R }.

(** The body of the loop of [computePoissonPMF]: the variables it assigns
    are [probs] and [sum]. *)
Definition pmfStep (lambda pi expLambda : R) (k : nat) (st : list R * R) : list R * R :=
  let '(probs, sum) := st in
  let pStandard := (expLambda * lambda ^ k) / factorial (Z.of_nat k) in
  let pZip := if decide (k = 0%nat) then pi + (1 - pi) * pStandard
              else (1 - pi) * pStandard in
  (probs ++ [pZip], sum + pZip).

(** [computePoissonPMF] in exact arithmetic; [Binary64.computePoissonPMF]
    has the program's. *)
Definition computePoissonPMF (lambda : R) (maxGoals : Z) (pi : R) : PMF :=
  let expLambda := exp (- lambda) in
  let '(probs, sum) := forEach (upto maxGoals) (pmfStep lambda pi expLambda) ([], 0) in
  {| probs := probs; tail := 1 - sum |}.

(** The standard Poisson mass and its zero-inflated form, as the
    specification writes them. *)
Definition poissonMass (lambda : R) (k : nat) : R :=
  exp (- lambda) * lambda ^ k / INR (fact k).

Definition zipMass (lambda pi : R) (k : nat) : R :=
  match k with
  | O => pi + (1 - pi) * poissonMass lambda k
  | S _ => (1 - pi) * poissonMass lambda k
  end.

(** ** Joint distribution *)

Definition MAX_GOALS : Z := 7.

#[global] Instance Q_eq_dec : EqDecision Q.
Proof. solve_decision. Defined.

#[global] Instance Q_countable : Countable Q :=
  inj_countable' (fun q => (Qnum q, Qden q)) (fun p => Qmake p.1 p.2)
                 (fun q => match q with Qmake _ _ => eq_refl end).

#[global] Instance Qlt_decision (x y : Q) : Decision (x < y)%Q.
Proof.
  destruct (Qlt_le_dec x y) as [H|H];
    [left; exact H | right; apply Qle_not_lt; exact H].
Defined.

#[global] Instance Rgt_decision (x y : R) : Decision (x > y) := Rgt_dec x y.

#[global] Instance nat_gt_decision (x y : nat) : Decision (x > y)%nat :=
  decide (y < x)%nat.

Definition STANDARD_LINES : list Q := [0.5; 1.5; 2.5; 3.5; 4.5; 5.5]%Q.

(** [total > line] for an integer goal total. *)
Definition totalOver (total : nat) (line : Q) : bool :=
  bool_decide (line < inject_Z (Z.of_nat total))%Q.

(** [matrix[h][a]].  Reading outside the grid gives [undefined] in
    JavaScript; the theorems below only read inside it. *)
Definition cell (matrix : list (list R)) (h a : nat) : R := (matrix !!! h) !!! a.

(** The body of the inner loop of [computeJointDistribution], which assigns
    [matrix] and [totalProb]. *)
Definition jointCell (distH distA : PMF) (i j : nat)
    (st : list (list R) * R) : list (list R) * R :=
  let '(matrix, totalProb) := st in
  let jointP := (probs distH !!! i) * (probs distA !!! j) in
  (alter (fun row => arraySet row j jointP) i matrix, totalProb + jointP).

(** The body of the outer loop: [matrix[i] = []], then the inner loop. *)
Definition jointRow (distH distA : PMF) (maxGoals : Z) (i : nat)
    (st : list (list R) * R) : list (list R) * R :=
  let '(matrix, totalProb) := st in
  forEach (upto maxGoals) (jointCell distH distA i) (arraySet matrix i [], totalProb).

(** The two nested loops, from [matrix = []] and [totalProb = 0], in exact
    arithmetic; [Binary64.jointGrid] has the program's. *)
Definition jointGrid (distH distA : PMF) (maxGoals : Z) : list (list R) * R :=
  forEach (upto maxGoals) (jointRow distH distA maxGoals) ([], 0).

(** ** Market derivation: what the two variants share *)

(** The template literal [`${h}-${a}`]. *)
Definition scoreKey (h a : nat) : string := pretty h +:+ "-" +:+ pretty a.

(** [for (let t = 0; t <= maxTotal; t++) m.exactTotals[t] = 0]. *)
Definition initExactTotals (maxTotal : Z) : list R :=
  forEach (upto maxTotal) (fun t exactTotals => arraySet exactTotals t 0) [].

(** [STANDARD_LINES.forEach(line => { if (total > line)
    m.overs[line] = (m.overs[line] || 0) + p; })]. *)
Definition addOvers (total : nat) (p : R) (overs : gmap Q R) : gmap Q R :=
  forEach STANDARD_LINES
    (fun line overs =>
       if totalOver total line
       then <[line := default 0 (overs !! line) + p]> overs
       else overs)
    overs.

(** ** Margin and pricing *)

(** [applyMargin] in exact arithmetic; [Binary64.applyMargin] has the
    program's. *)
Definition applyMargin (probs : list R) (marginPct : R) : list R :=
  let marginDecimal := marginPct / 100 in
  let targetSum := 1 + marginDecimal in
  let currentSum := reduceSum probs in
  (fun p => if decide (currentSum = 0) then 0 else (p / currentSum) * targetSum)
    <$> probs.

Definition getOdds (prob : R) : R :=
  if decide (prob <= 0.0001) then 0 else 1 / prob.

(** ** Arrays as heap objects

    [applyMargin] receives a reference to an array.  To state what it does
    to the arrays that exist when it is called, arrays live in a store and
    the array methods it uses are store transformers: [reduce] reads its
    receiver, [map] reads its receiver and allocates the array it returns. *)
Module Heap.

Abbreviation loc := positive (only parsing).
Abbreviation heap := (gmap positive (list R)) (only parsing).

(** A computation on the store that may fail (on a dangling reference). *)
Definition M (A : Type) : Type := heap -> option (A * heap).

Definition ret {A : Type} (x : A) : M A := fun h => Some (x, h).

Definition bind {A B : Type} (c : M A) (k : A -> M B) : M B :=
  fun h => match c h with
           | Some (x, h') => k x h'
           | None => None
           end.

(** [arr.reduce(f, init)] *)
Definition reduce (arr : loc) (f : R -> R -> R) (init : R) : M R :=
  fun h => match h !! arr with
           | Some xs => Some (fold_left f xs init, h)
           | None => None
           end.

(** [arr.map(f)] *)
Definition map (arr : loc) (f : R -> R) : M loc :=
  fun h => match h !! arr with
           | Some xs => let l := fresh (dom h) in Some (l, <[l := f <$> xs]> h)
           | None => None
           end.

(** [arr[i] = x], the write the engine performs on the arrays it is
    building; [applyMargin] has no such statement. *)
Definition set (arr : loc) (i : nat) (x : R) : M unit :=
  fun h => match h !! arr with
           | Some xs => Some (tt, <[arr := arraySet xs i x]> h)
           | None => None
           end.

Definition applyMargin (probs : loc) (marginPct : R) : M loc :=
  let marginDecimal := marginPct / 100 in
  let targetSum := 1 + marginDecimal in
  bind (reduce probs Rplus 0) (fun currentSum =>
  map probs (fun p => if decide (currentSum = 0) then 0
                      else (p / currentSum) * targetSum)).

End Heap.

(** ** Half-time / full-time *)

Record OverUnder : Type := { over : R; under : R }.

Record HtFt : Type := {
  htft : gmap string R;
  htftGoals : gmap Q (gmap string OverUnder)
}.

(** The object literal that initialises [htft], in source order. *)
Definition htftInit : list (string * R) :=
  [("H-H", 0); ("H-D", 0); ("H-A", 0);
   ("D-H", 0); ("D-D", 0); ("D-A", 0);
   ("A-H", 0); ("A-D", 0); ("A-A", 0)].

(** [Object.keys(htft)] *)
Definition htftKeys : list string := htftInit.*1.

Definition htftGoalsInit : gmap Q (gmap string OverUnder) :=
  forEach STANDARD_LINES
    (fun line htftGoals =>
       <[line := forEach htftKeys
                   (fun key tbl => <[key := {| over := 0; under := 0 |}]> tbl) ∅]>
         htftGoals)
    ∅.

(** [x > y ? 'H' : x === y ? 'D' : 'A'] *)
Definition resultOf (x y : nat) : string :=
  if decide (x > y)%nat then "H" else if decide (x = y) then "D" else "A".

Definition addOver (prob : R) (ou : OverUnder) : OverUnder :=
  {| over := over ou + prob; under := under ou |}.

Definition addUnder (prob : R) (ou : OverUnder) : OverUnder :=
  {| over := over ou; under := under ou + prob |}.

(** The statements of the innermost loop body after the two [continue]
    guards: they add [prob] to one HT/FT key and, per line, to that key's
    over or under.  The additions are exact here; [Binary64.htftAdd] has
    the program's. *)
Definition htftAdd (h1_h h1_a h2_h h2_a : nat) (pHT p2H : R) (st : HtFt) : HtFt :=
  let htResult := resultOf h1_h h1_a in
  let ft_h := (h1_h + h2_h)%nat in
  let ft_a := (h1_a + h2_a)%nat in
  let ftTotal := (ft_h + ft_a)%nat in
  let ftResult := resultOf ft_h ft_a in
  let prob := pHT * p2H in
  let key := htResult +:+ "-" +:+ ftResult in
  {| htft := <[key := (htft st !!! key) + prob]> (htft st);
     htftGoals :=
       forEach STANDARD_LINES
         (fun line htftGoals =>
            if totalOver ftTotal line
            then alter (alter (addOver prob) key) line htftGoals
            else alter (alter (addUnder prob) key) line htftGoals)
         (htftGoals st) |}.

(** ** Form values *)

(** [value || fallback] on a string: the empty string is falsy. *)
Definition orDefault (value fallback : string) : string :=
  if decide (value = EmptyString) then fallback else value.

(** [x || 0] on a number: zero is falsy. *)
Definition orZero (x : R) : R := if decide (x = 0) then 0 else x.
(** ** The variant with one margin per period (first script) *)
Module Dutching.

Record JointDist : Type := { matrix : list (list R); tailProb : R }.

Definition computeJointDistribution (lambdaH lambdaA piH piA : R) (maxGoals : Z)
    : JointDist :=
  let distH := computePoissonPMF lambdaH maxGoals piH in
  let distA := computePoissonPMF lambdaA maxGoals piA in
  let '(matrix, totalProb) := jointGrid distH distA maxGoals in
  {| matrix := matrix; tailProb := 1 - totalProb |}.

Record Markets : Type := {
  homeWin : R; draw : R; awayWin : R;
  bttsYes : R; bttsNo : R;
  winToNilHome : R; winToNilAway : R;
  cleanSheetHome : R; cleanSheetAway : R;
  overs : gmap Q R;
  exactTotals : list R;
  map : gmap string R
}.

(** The object [m] before the grid is scanned. *)
Definition initMarkets (maxTotal : Z) : Markets :=
  {| homeWin := 0; draw := 0; awayWin := 0;
     bttsYes := 0; bttsNo := 0;
     winToNilHome := 0; winToNilAway := 0;
     cleanSheetHome := 0; cleanSheetAway := 0;
     overs := ∅;
     exactTotals := initExactTotals maxTotal;
     map := ∅ |}.

(** The body of the inner loop of [deriveMarkets] at cell [(h, a)]. *)
Definition marketsCell (matrix : list (list R)) (maxTotal : Z) (h a : nat)
    (m : Markets) : Markets :=
  let p := cell matrix h a in
  let total := (h + a)%nat in
  {| map := <[scoreKey h a := p]> (map m);
     homeWin := if decide (h > a)%nat then homeWin m + p else homeWin m;
     draw := if decide (h > a)%nat then draw m
             else if decide (h = a) then draw m + p else draw m;
     awayWin := if decide (h > a)%nat then awayWin m
                else if decide (h = a) then awayWin m else awayWin m + p;
     bttsYes := if decide (h > 0 ∧ a > 0)%nat then bttsYes m + p else bttsYes m;
     bttsNo := bttsNo m;
     winToNilHome := if decide (h > 0 ∧ a = 0)%nat then winToNilHome m + p
                     else winToNilHome m;
     winToNilAway := if decide (a > 0 ∧ h = 0)%nat then winToNilAway m + p
                     else winToNilAway m;
     cleanSheetHome := if decide (a = 0)%nat then cleanSheetHome m + p
                       else cleanSheetHome m;
     cleanSheetAway := if decide (h = 0)%nat then cleanSheetAway m + p
                       else cleanSheetAway m;
     exactTotals := if decide (Z.of_nat total ≤ maxTotal)%Z
                    then alter (fun x => x + p) total (exactTotals m)
                    else exactTotals m;
     overs := addOvers total p (overs m) |}.

(** The grid scan: the two nested loops over [h] and [a], with exact
    additions; the scan of the same variant in [Binary64] has the
    program's. *)
Definition scanMarkets (matrix : list (list R)) : Markets :=
  let size := length matrix in
  let maxTotal := ((Z.of_nat size - 1) * 2)%Z in
  forEach (below size) (fun h =>
  forEach (below size) (fun a => marketsCell matrix maxTotal h a))
  (initMarkets maxTotal).

(** [m.bttsNo = 1 - m.bttsYes] *)
Definition setBttsNo (m : Markets) : Markets :=
  {| map := map m;
     homeWin := homeWin m; draw := draw m; awayWin := awayWin m;
     bttsYes := bttsYes m; bttsNo := 1 - bttsYes m;
     winToNilHome := winToNilHome m; winToNilAway := winToNilAway m;
     cleanSheetHome := cleanSheetHome m; cleanSheetAway := cleanSheetAway m;
     exactTotals := exactTotals m; overs := overs m |}.

(** The normalisation of 1X2 by its own sum, with exact sum and quotients;
    [normalise1x2] of the same variant in [Binary64] has the program's. *)
Definition normalise1x2 (m : Markets) : Markets :=
  let sum1x2 := homeWin m + draw m + awayWin m in
  if decide (sum1x2 > 0)
  then {| map := map m;
          homeWin := homeWin m / sum1x2;
          draw := draw m / sum1x2;
          awayWin := awayWin m / sum1x2;
          bttsYes := bttsYes m; bttsNo := bttsNo m;
          winToNilHome := winToNilHome m; winToNilAway := winToNilAway m;
          cleanSheetHome := cleanSheetHome m; cleanSheetAway := cleanSheetAway m;
          exactTotals := exactTotals m; overs := overs m |}
  else m.

Definition deriveMarkets (jointDist : JointDist) : Markets :=
  normalise1x2 (setBttsNo (scanMarkets (matrix jointDist))).

Definition deriveHalfTimeFullTime (jointH1 jointH2 : JointDist) : HtFt :=
  let matrixH1 := matrix jointH1 in
  let matrixH2 := matrix jointH2 in
  let size := length matrixH1 in
  forEach (below size) (fun h1_h =>
  forEach (below size) (fun h1_a st =>
    let pHT := cell matrixH1 h1_h h1_a in
    if decide (pHT = 0) then st else
    forEach (below size) (fun h2_h =>
    forEach (below size) (fun h2_a st =>
      let p2H := cell matrixH2 h2_h h2_a in
      if decide (p2H = 0) then st else
      htftAdd h1_h h1_a h2_h h2_a pHT p2H st)) st))
  {| htft := list_to_map htftInit; htftGoals := htftGoalsInit |}.


(** What [getInputs] returns. *)
Record Inputs : Type := {
  homeTeam : string; awayTeam : string;
  lambdaHomeFull : R; lambdaAwayFull : R;
  piHome : R; piAway : R;
  halfFactor : R;
  marginFull : R; marginH1 : R; marginH2 : R;
  isValid : bool; errorMsg : string
}.

(** The fields of [appState] that [calculateAndRender] assigns itself
    ([null] is [None]); the tables filled in by [renderAllMarkets] and the
    page are not part of the engine. *)
Record AppState : Type := {
  jointFull : option JointDist;
  jointH1 : option JointDist;
  jointH2 : option JointDist;
  inputs : option Inputs
}.

(** [calculateAndRender], from the value [getInputs] returned to the state
    it hands over to [renderAllMarkets]. *)
Definition calculateAndRender (inputs : Inputs) (appState : AppState) : AppState :=
  if negb (isValid inputs) then appState
  else
    let factorH1 := halfFactor inputs in
    let factorH2 := 1 - factorH1 in
    {| inputs := Some inputs;
       jointFull := Some (computeJointDistribution
                            (lambdaHomeFull inputs) (lambdaAwayFull inputs)
                            (piHome inputs) (piAway inputs) MAX_GOALS);
       jointH1 := Some (computeJointDistribution
                          (lambdaHomeFull inputs * factorH1)
                          (lambdaAwayFull inputs * factorH1)
                          (piHome inputs) (piAway inputs) MAX_GOALS);
       jointH2 := Some (computeJointDistribution
                          (lambdaHomeFull inputs * factorH2)
                          (lambdaAwayFull inputs * factorH2)
                          (piHome inputs) (piAway inputs) MAX_GOALS) |}.

(** [appState] when the page has loaded, and an input used as an example:
    rates 1 and 0, no zero inflation, split factor 1/4. *)
Definition emptyState : AppState :=
  {| jointFull := None; jointH1 := None; jointH2 := None; inputs := None |}.

Definition exampleInputs : Inputs :=
  {| homeTeam := "Home"; awayTeam := "Away";
     lambdaHomeFull := 1; lambdaAwayFull := 0;
     piHome := 0; piAway := 0;
     halfFactor := 1/4;
     marginFull := 0; marginH1 := 0; marginH2 := 0;
     isValid := true; errorMsg := "" |}.


(** ** Reading the form *)

(** The page's form as [getInputs] reads it: the value of the checked
    [inputMode] radio button, the [useZip] check box, the two name
    fields, and every numeric field after [parseFloat] (taken to be a
    number). *)
Record Form : Type := {
  mode : string; useZip : bool;
  homeTeamField : string; awayTeamField : string;
  xgHome : R; xgAway : R;
  supremacy : R; expectancy : R;
  piHomeField : R; piAwayField : R;
  halfFactorField : R;
  marginFullField : R; marginH1Field : R; marginH2Field : R
}.

(** [data.isValid = false; data.errorMsg = msg] *)
Definition invalid (msg : string) (data : Inputs) : Inputs :=
  {| homeTeam := homeTeam data; awayTeam := awayTeam data;
     lambdaHomeFull := lambdaHomeFull data; lambdaAwayFull := lambdaAwayFull data;
     piHome := piHome data; piAway := piAway data;
     halfFactor := halfFactor data;
     marginFull := marginFull data; marginH1 := marginH1 data; marginH2 := marginH2 data;
     isValid := false; errorMsg := msg |}.

(** [data.lambdaHomeFull = h; data.lambdaAwayFull = a] *)
Definition withLambdas (h a : R) (data : Inputs) : Inputs :=
  {| homeTeam := homeTeam data; awayTeam := awayTeam data;
     lambdaHomeFull := h; lambdaAwayFull := a;
     piHome := piHome data; piAway := piAway data;
     halfFactor := halfFactor data;
     marginFull := marginFull data; marginH1 := marginH1 data; marginH2 := marginH2 data;
     isValid := isValid data; errorMsg := errorMsg data |}.

(** [data.piHome = h; data.piAway = a] *)
Definition withPis (h a : R) (data : Inputs) : Inputs :=
  {| homeTeam := homeTeam data; awayTeam := awayTeam data;
     lambdaHomeFull := lambdaHomeFull data; lambdaAwayFull := lambdaAwayFull data;
     piHome := h; piAway := a;
     halfFactor := halfFactor data;
     marginFull := marginFull data; marginH1 := marginH1 data; marginH2 := marginH2 data;
     isValid := isValid data; errorMsg := errorMsg data |}.

(** The safety clamp: [if (data.marginFull < 0) data.marginFull = 0], and
    the same for the two half margins. *)
Definition clampMargins (data : Inputs) : Inputs :=
  {| homeTeam := homeTeam data; awayTeam := awayTeam data;
     lambdaHomeFull := lambdaHomeFull data; lambdaAwayFull := lambdaAwayFull data;
     piHome := piHome data; piAway := piAway data;
     halfFactor := halfFactor data;
     marginFull := if decide (marginFull data < 0) then 0 else marginFull data;
     marginH1 := if decide (marginH1 data < 0) then 0 else marginH1 data;
     marginH2 := if decide (marginH2 data < 0) then 0 else marginH2 data;
     isValid := isValid data; errorMsg := errorMsg data |}.

(** [getInputs] on a form whose numeric fields are numbers, in exact
    arithmetic.  [getInputs] of the same variant in [Binary64] has the
    program's arithmetic and the fields that do not parse. *)
Definition getInputs (form : Form) : Inputs :=
  let data :=
    {| homeTeam := orDefault (homeTeamField form) "Home";
       awayTeam := orDefault (awayTeamField form) "Away";
       lambdaHomeFull := 0; lambdaAwayFull := 0;
       piHome := 0; piAway := 0;
       halfFactor := halfFactorField form;
       marginFull := orZero (marginFullField form);
       marginH1 := orZero (marginH1Field form);
       marginH2 := orZero (marginH2Field form);
       isValid := true; errorMsg := "" |} in
  let data :=
    if decide (mode form = "xg") then
      let data := withLambdas (xgHome form) (xgAway form) data in
      if decide (lambdaHomeFull data < 0 \/ lambdaAwayFull data < 0)
      then invalid "xG values must be non-negative." data
      else data
    else
      let sup := supremacy form in
      let exp := expectancy form in
      if decide (exp <= 0)
      then invalid "Total expectancy must be > 0." data
      else
        let data := withLambdas ((exp + sup) / 2) ((exp - sup) / 2) data in
        if decide (lambdaHomeFull data < 0 \/ lambdaAwayFull data < 0)
        then invalid "Implied team goals negative." data
        else data in
  let data :=
    if useZip form then
      let data := withPis (piHomeField form) (piAwayField form) data in
      if decide (piHome data < 0 \/ piHome data > 1 \/ piAway data < 0 \/ piAway data > 1)
      then invalid "Pi must be 0-1." data
      else data
    else data in
  clampMargins data.

(** An example form: supremacy 0.3 on an expectancy of 2.7, ZIP switched
    on with inflations 0.05 and 0.1. *)
Definition exampleForm : Form :=
  {| mode := "supexp"; useZip := true;
     homeTeamField := ""; awayTeamField := "Rovers";
     xgHome := 0; xgAway := 0;
     supremacy := 3/10; expectancy := 27/10;
     piHomeField := 1/20; piAwayField := 1/10;
     halfFactorField := 9/20;
     marginFullField := 5; marginH1Field := -2; marginH2Field := 0 |}.

(** ** The combination markets of the full match *)

(** One entry of a goal group: the scoreline and its probability. *)
Record ScoreItem : Type := { score : string; prob : R }.

(** [scores.sort((a, b) => b.prob - a.prob)]: the stable sort of the
    language with this comparator.  An element is put before the first
    element of the sorted rest that the comparator does not order before
    it, so that elements with equal probabilities keep their order. *)
Fixpoint insertByProb (x : ScoreItem) (sorted : list ScoreItem) : list ScoreItem :=
  match sorted with
  | [] => [x]
  | y :: rest =>
      if decide (prob y - prob x <= 0) then x :: y :: rest
      else y :: insertByProb x rest
  end.

Definition sortByProb (scores : list ScoreItem) : list ScoreItem :=
  foldr insertByProb [] scores.

(** The groups are the properties [0 .. (size - 1) * 2] of an object; the
    bucket a scoreline is pushed to always exists. *)
Definition deriveFinalScoreByGoals (jointDist : JointDist) : gmap nat (list ScoreItem) :=
  let matrix := matrix jointDist in
  let size := length matrix in
  let scoresByGoals :=
    forEach (upto ((Z.of_nat size - 1) * 2))
      (fun t scoresByGoals => <[t := []]> scoresByGoals) ∅ in
  let scoresByGoals :=
    forEach (below size) (fun h =>
    forEach (below size) (fun a scoresByGoals =>
      let p := cell matrix h a in
      let total := (h + a)%nat in
      alter (fun scores => scores ++ [{| score := scoreKey h a; prob := p |}])
            total scoresByGoals))
    scoresByGoals in
  sortByProb <$> scoresByGoals.



End Dutching.

(** ** The variant with a single global margin (second script) *)
Module SingleMargin.

Record JointDist : Type := {
  matrix : list (list R);
  tailProb : R;
  distH : PMF;
  distA : PMF
}.

Definition computeJointDistribution (lambdaH lambdaA piH piA : R) (maxGoals : Z)
    : JointDist :=
  let distH := computePoissonPMF lambdaH maxGoals piH in
  let distA := computePoissonPMF lambdaA maxGoals piA in
  let '(matrix, totalProb) := jointGrid distH distA maxGoals in
  {| matrix := matrix; tailProb := 1 - totalProb; distH := distH; distA := distA |}.

Record Markets : Type := {
  homeWin : R; draw : R; awayWin : R;
  bttsYes : R; bttsNo : R;
  winToNilHome : R; winToNilAway : R;
  cleanSheetHome : R; cleanSheetAway : R;
  overs : gmap Q R;
  exactTotals : list R
}.

(** The object [m] before the grid is scanned. *)
Definition initMarkets (maxTotal : Z) : Markets :=
  {| homeWin := 0; draw := 0; awayWin := 0;
     bttsYes := 0; bttsNo := 0;
     winToNilHome := 0; winToNilAway := 0;
     cleanSheetHome := 0; cleanSheetAway := 0;
     overs := ∅;
     exactTotals := initExactTotals maxTotal |}.

(** The body of the inner loop of [deriveMarkets] at cell [(h, a)]. *)
Definition marketsCell (matrix : list (list R)) (maxTotal : Z) (h a : nat)
    (m : Markets) : Markets :=
  let p := cell matrix h a in
  let total := (h + a)%nat in
  {| homeWin := if decide (h > a)%nat then homeWin m + p else homeWin m;
     draw := if decide (h > a)%nat then draw m
             else if decide (h = a) then draw m + p else draw m;
     awayWin := if decide (h > a)%nat then awayWin m
                else if decide (h = a) then awayWin m else awayWin m + p;
     bttsYes := if decide (h > 0 ∧ a > 0)%nat then bttsYes m + p else bttsYes m;
     bttsNo := bttsNo m;
     winToNilHome := if decide (h > 0 ∧ a = 0)%nat then winToNilHome m + p
                     else winToNilHome m;
     winToNilAway := if decide (a > 0 ∧ h = 0)%nat then winToNilAway m + p
                     else winToNilAway m;
     cleanSheetHome := if decide (a = 0)%nat then cleanSheetHome m + p
                       else cleanSheetHome m;
     cleanSheetAway := if decide (h = 0)%nat then cleanSheetAway m + p
                       else cleanSheetAway m;
     exactTotals := if decide (Z.of_nat total ≤ maxTotal)%Z
                    then alter (fun x => x + p) total (exactTotals m)
                    else exactTotals m;
     overs := addOvers total p (overs m) |}.

(** The grid scan: the two nested loops over [h] and [a], with exact
    additions; the scan of the same variant in [Binary64] has the
    program's. *)
Definition scanMarkets (matrix : list (list R)) : Markets :=
  let size := length matrix in
  let maxTotal := ((Z.of_nat size - 1) * 2)%Z in
  forEach (below size) (fun h =>
  forEach (below size) (fun a => marketsCell matrix maxTotal h a))
  (initMarkets maxTotal).

(** [m.bttsNo = 1 - m.bttsYes] *)
Definition setBttsNo (m : Markets) : Markets :=
  {| homeWin := homeWin m; draw := draw m; awayWin := awayWin m;
     bttsYes := bttsYes m; bttsNo := 1 - bttsYes m;
     winToNilHome := winToNilHome m; winToNilAway := winToNilAway m;
     cleanSheetHome := cleanSheetHome m; cleanSheetAway := cleanSheetAway m;
     exactTotals := exactTotals m; overs := overs m |}.

(** The normalisation of 1X2 by its own sum, with exact sum and quotients;
    [normalise1x2] of the same variant in [Binary64] has the program's. *)
Definition normalise1x2 (m : Markets) : Markets :=
  let sum1x2 := homeWin m + draw m + awayWin m in
  if decide (sum1x2 > 0)
  then {| homeWin := homeWin m / sum1x2;
          draw := draw m / sum1x2;
          awayWin := awayWin m / sum1x2;
          bttsYes := bttsYes m; bttsNo := bttsNo m;
          winToNilHome := winToNilHome m; winToNilAway := winToNilAway m;
          cleanSheetHome := cleanSheetHome m; cleanSheetAway := cleanSheetAway m;
          exactTotals := exactTotals m; overs := overs m |}
  else m.

Definition deriveMarkets (jointDist : JointDist) : Markets :=
  normalise1x2 (setBttsNo (scanMarkets (matrix jointDist))).

Record Inputs : Type := {
  homeTeam : string; awayTeam : string;
  lambdaHomeFull : R; lambdaAwayFull : R;
  piHome : R; piAway : R;
  halfFactor : R;
  marginPct : R;
  isValid : bool; errorMsg : string
}.

Record AppState : Type := {
  jointFull : option JointDist;
  jointH1 : option JointDist;
  jointH2 : option JointDist;
  inputs : option Inputs
}.

(** [calculateAndRender]: here the second half is built with the same
    factor as the first. *)
Definition calculateAndRender (inputs : Inputs) (appState : AppState) : AppState :=
  if negb (isValid inputs) then appState
  else
    let factor := halfFactor inputs in
    {| inputs := Some inputs;
       jointFull := Some (computeJointDistribution
                            (lambdaHomeFull inputs) (lambdaAwayFull inputs)
                            (piHome inputs) (piAway inputs) MAX_GOALS);
       jointH1 := Some (computeJointDistribution
                          (lambdaHomeFull inputs * factor)
                          (lambdaAwayFull inputs * factor)
                          (piHome inputs) (piAway inputs) MAX_GOALS);
       jointH2 := Some (computeJointDistribution
                          (lambdaHomeFull inputs * factor)
                          (lambdaAwayFull inputs * factor)
                          (piHome inputs) (piAway inputs) MAX_GOALS) |}.

Definition emptyState : AppState :=
  {| jointFull := None; jointH1 := None; jointH2 := None; inputs := None |}.

Definition exampleInputs : Inputs :=
  {| homeTeam := "Home"; awayTeam := "Away";
     lambdaHomeFull := 1; lambdaAwayFull := 0;
     piHome := 0; piAway := 0;
     halfFactor := 1/4;
     marginPct := 0;
     isValid := true; errorMsg := "" |}.

(** ** Reading the form *)

(** The page's form as [getInputs] reads it: the value of the checked
    [inputMode] radio button, the [useZip] check box, the two name
    fields, and every numeric field after [parseFloat] (taken to be a
    number). *)
Record Form : Type := {
  mode : string; useZip : bool;
  homeTeamField : string; awayTeamField : string;
  xgHome : R; xgAway : R;
  supremacy : R; expectancy : R;
  piHomeField : R; piAwayField : R;
  halfFactorField : R;
  marginPctField : R
}.

(** [data.isValid = false; data.errorMsg = msg] *)
Definition invalid (msg : string) (data : Inputs) : Inputs :=
  {| homeTeam := homeTeam data; awayTeam := awayTeam data;
     lambdaHomeFull := lambdaHomeFull data; lambdaAwayFull := lambdaAwayFull data;
     piHome := piHome data; piAway := piAway data;
     halfFactor := halfFactor data;
     marginPct := marginPct data;
     isValid := false; errorMsg := msg |}.

(** [data.lambdaHomeFull = h; data.lambdaAwayFull = a] *)
Definition withLambdas (h a : R) (data : Inputs) : Inputs :=
  {| homeTeam := homeTeam data; awayTeam := awayTeam data;
     lambdaHomeFull := h; lambdaAwayFull := a;
     piHome := piHome data; piAway := piAway data;
     halfFactor := halfFactor data;
     marginPct := marginPct data;
     isValid := isValid data; errorMsg := errorMsg data |}.

(** [data.piHome = h; data.piAway = a] *)
Definition withPis (h a : R) (data : Inputs) : Inputs :=
  {| homeTeam := homeTeam data; awayTeam := awayTeam data;
     lambdaHomeFull := lambdaHomeFull data; lambdaAwayFull := lambdaAwayFull data;
     piHome := h; piAway := a;
     halfFactor := halfFactor data;
     marginPct := marginPct data;
     isValid := isValid data; errorMsg := errorMsg data |}.

(** [if (data.marginPct < 0) data.marginPct = 0] *)
Definition clampMargins (data : Inputs) : Inputs :=
  {| homeTeam := homeTeam data; awayTeam := awayTeam data;
     lambdaHomeFull := lambdaHomeFull data; lambdaAwayFull := lambdaAwayFull data;
     piHome := piHome data; piAway := piAway data;
     halfFactor := halfFactor data;
     marginPct := if decide (marginPct data < 0) then 0 else marginPct data;
     isValid := isValid data; errorMsg := errorMsg data |}.

(** [getInputs] on a form whose numeric fields are numbers, in exact
    arithmetic.  [getInputs] of the same variant in [Binary64] has the
    program's arithmetic and the fields that do not parse. *)
Definition getInputs (form : Form) : Inputs :=
  let data :=
    {| homeTeam := orDefault (homeTeamField form) "Home";
       awayTeam := orDefault (awayTeamField form) "Away";
       lambdaHomeFull := 0; lambdaAwayFull := 0;
       piHome := 0; piAway := 0;
       halfFactor := halfFactorField form;
       marginPct := marginPctField form;
       isValid := true; errorMsg := "" |} in
  let data :=
    if decide (mode form = "xg") then
      let data := withLambdas (xgHome form) (xgAway form) data in
      if decide (lambdaHomeFull data < 0 \/ lambdaAwayFull data < 0)
      then invalid "xG values must be non-negative." data
      else data
    else
      let sup := supremacy form in
      let exp := expectancy form in
      if decide (exp <= 0)
      then invalid "Total expectancy must be greater than 0." data
      else
        let data := withLambdas ((exp + sup) / 2) ((exp - sup) / 2) data in
        if decide (lambdaHomeFull data < 0 \/ lambdaAwayFull data < 0)
        then invalid "Implied team goals are negative. Check Supremacy vs Expectancy." data
        else data in
  let data :=
    if useZip form then
      let data := withPis (piHomeField form) (piAwayField form) data in
      if decide (piHome data < 0 \/ piHome data > 1 \/ piAway data < 0 \/ piAway data > 1)
      then invalid "Pi (Zero-Inflation) must be between 0 and 1." data
      else data
    else data in
  clampMargins data.

Definition exampleForm : Form :=
  {| mode := "supexp"; useZip := true;
     homeTeamField := ""; awayTeamField := "Rovers";
     xgHome := 0; xgAway := 0;
     supremacy := 3/10; expectancy := 27/10;
     piHomeField := 1/20; piAwayField := 1/10;
     halfFactorField := 9/20;
     marginPctField := -2 |}.

End SingleMargin.

(** ** Notions of the specification *)

(** A [(G+1) x (G+1)] grid. *)
Definition square (n : nat) (m : list (list R)) : Prop :=
  length m = n /\ Forall (fun row => length row = n) m.

(** [matrix] and [tailProb] are the outer product of two distributions on
    the grid [0..maxGoals], with the mass the grid leaves out. *)
Definition outerProduct (distHome distAway : PMF) (maxGoals : Z)
    (matrix : list (list R)) (tailProb : R) : Prop :=
  square (Z.to_nat (maxGoals + 1)) matrix
  /\ (forall h a : nat, (Z.of_nat h <= maxGoals)%Z -> (Z.of_nat a <= maxGoals)%Z ->
        cell matrix h a = (probs distHome !!! h) * (probs distAway !!! a))
  /\ tailProb = 1 - gridSum matrix
  /\ tailProb = 1 - Rsum (probs distHome) * Rsum (probs distAway).

(** The row of products the inner loop of [computeJointDistribution] builds. *)
Definition productRow (distH distA : PMF) (n i : nat) : list R :=
  (fun j => (probs distH !!! i) * (probs distA !!! j)) <$> seq 0 n.

(** The cells of a [size x size] grid in the order the nested loops
    [for h ... for a ...] visit them. *)
Definition gridCells (size : nat) : list (nat * nat) :=
  list_prod (below size) (below size).


Definition isHomeWin (h a : nat) : bool := bool_decide (h > a)%nat.
Definition isDraw (h a : nat) : bool := bool_decide (h = a).
Definition isAwayWin (h a : nat) : bool := bool_decide (h < a)%nat.
Definition bothScore (h a : nat) : bool := bool_decide (h > 0 /\ a > 0)%nat.

(** The pairs of a first-half cell and a second-half cell, in the order the
    four nested loops of [deriveHalfTimeFullTime] visit them. *)
Definition cellPairs (size : nat) : list ((nat * nat) * (nat * nat)) :=
  list_prod (gridCells size) (gridCells size).

(** One visit of the four nested loops, with ([skip = true]) or without the
    two [continue] guards. *)
Definition htftVisit (skip : bool) (matrixH1 matrixH2 : list (list R))
    (q : (nat * nat) * (nat * nat)) (st : HtFt) : HtFt :=
  let pHT := cell matrixH1 q.1.1 q.1.2 in
  let p2H := cell matrixH2 q.2.1 q.2.2 in
  if skip && (bool_decide (pHT = 0) || bool_decide (p2H = 0)) then st
  else htftAdd q.1.1 q.1.2 q.2.1 q.2.2 pHT p2H st.

(** The key [`${htResult}-${ftResult}`] a pair of cells adds to. *)
Definition htftKeyOf (q : (nat * nat) * (nat * nat)) : string :=
  resultOf q.1.1 q.1.2 +:+ "-" +:+ resultOf (q.1.1 + q.2.1) (q.1.2 + q.2.2).


(** What a visit adds for one line: [prob] goes to over or to under. *)
Definition bump (total : nat) (prob : R) (line : Q) : OverUnder -> OverUnder :=
  if totalOver total line then addOver prob else addUnder prob.

(** ** Proof automation *)

(** Membership in an explicit list, by evaluation. *)
Ltac member_by_evaluation := apply (bool_decide_unpack _); vm_compute; exact I.

(** ** Notions for the further properties *)

(** Selections of scorelines, named after the tests of [deriveMarkets]. *)
Definition isWinToNilHome (h a : nat) : bool := bool_decide (h > 0 /\ a = 0)%nat.
Definition isWinToNilAway (h a : nat) : bool := bool_decide (a > 0 /\ h = 0)%nat.
Definition homeKeepsCleanSheet (h a : nat) : bool := bool_decide (a = 0%nat).
Definition awayKeepsCleanSheet (h a : nat) : bool := bool_decide (h = 0%nat).
Definition isNilNil (h a : nat) : bool := bool_decide (h = 0 /\ a = 0)%nat.
Definition totalIs (t : nat) (h a : nat) : bool := bool_decide ((h + a)%nat = t).

(** A string without the character [-]. *)
Fixpoint dashFree (s : string) : Prop :=
  match s with
  | EmptyString => True
  | String c s' => c <> "-"%char /\ dashFree s'
  end.

(** What the scan of [deriveMarkets] does to [m.exactTotals], to [m.overs]
    and to [m.map] at one cell. *)
Definition totalsStep (matrix : list (list R)) (maxTotal : Z) (c : nat * nat)
    (exactTotals : list R) : list R :=
  if decide (Z.of_nat (c.1 + c.2) ≤ maxTotal)%Z
  then alter (fun x => x + cell matrix c.1 c.2) (c.1 + c.2)%nat exactTotals
  else exactTotals.


Definition mapStep (matrix : list (list R)) (c : nat * nat) (map : gmap string R)
    : gmap string R :=
  <[scoreKey c.1 c.2 := cell matrix c.1 c.2]> map.


(** ** Notions for the combination markets *)

(** [table[line][key]] of a table of over/under pairs per line and key. *)
Definition entry (table : gmap Q (gmap string OverUnder)) (line : Q) (key : string)
    : option OverUnder :=
  table !! line ≫= fun perKey => perKey !! key.







(** The scorelines with a given total, in the order the grid is scanned,
    as entries of a goal group. *)
Definition scoresWithTotal (matrix : list (list R)) (size t : nat) : list Dutching.ScoreItem :=
  (fun c : nat * nat =>
     {| Dutching.score := scoreKey c.1 c.2; Dutching.prob := cell matrix c.1 c.2 |})
    <$> filter (fun c : nat * nat => (c.1 + c.2)%nat = t) (gridCells size).

(** ** Notions for the half-time / full-time table *)




(** * The engine on binary64 numbers

    The definitions above read every arithmetic operation of the engine as
    the exact one.  A JavaScript number is an IEEE 754 binary64 value: the
    program rounds after every operation, overflows to an infinity and
    produces NaN, and an equation of exact arithmetic need not be an
    equation of the program.  This module gives the calculation core a
    second time, statement by statement as above, over the binary64
    numbers of the kernel ([PrimFloat]: round to nearest, ties to even,
    signed zeros, infinities, NaN).

    [Math.exp] and [Math.pow] are the host's: the language standard fixes
    their results only at special arguments and otherwise asks for an
    approximation.  They are the two fields of a [MathObject], and nothing
    is assumed of them. *)
Module Binary64.

#[local] Open Scope float_scope.

(** ** Numbers, arrays and loops *)

(** An array element or object property that is not there reads as
    [undefined], which arithmetic turns into NaN. *)
#[global] Instance float_inhabited : Inhabited float := populate nan.

(** A loop counter used as a number.  The counters of the engine are small
    non-negative integers, which binary64 holds exactly (as it does every
    integer up to 2^53, which no counter of the program can pass). *)
Definition ofZ (i : Z) : float := of_uint63 (Uint63.of_Z i).

(** [x || 0] on a number: [0], [-0] and NaN are falsy. *)
Definition orZero (x : float) : float :=
  if (x =? 0) || is_nan x then 0 else x.

(** [probs.reduce((a, b) => a + b, 0)]. *)
Definition reduceSum (probs : list float) : float := fold_left PrimFloat.add probs 0.

(** The value of a finite binary64 number as a rational; [None] for the
    infinities and NaN. *)
Definition exactValue (x : float) : option Q :=
  match Prim2SF x with
  | S754_zero _ => Some 0%Q
  | S754_finite s m e =>
      let n := if s then Z.neg m else Z.pos m in
      Some (Qred (if decide (0 <= e)%Z
                  then inject_Z (n * 2 ^ e)
                  else Qmake n (Z.to_pos (2 ^ (- e)))))
  | _ => None
  end.

(** The host's [Math] object, as far as the engine calls it. *)
Record MathObject : Type := {
  Math_exp : float -> float;
  Math_pow : float -> float -> float
}.

(** ** Math model *)

Definition factorialCache : list float := [1; 1; 2; 6; 24; 120; 720; 5040].

Definition factorial (n : Z) : float :=
  if decide (n < 0)%Z then 1
  else if decide (n < Z.of_nat (length factorialCache))%Z
       then factorialCache !!! Z.to_nat n
       else
         let res := factorialCache !!! (length factorialCache - 1)%nat in
         forEach (fromTo (Z.of_nat (length factorialCache)) n)
                 (fun i res => res * ofZ i) res.

Record PMF : Type := { probs : list float; tail : float }.

(** [(expLambda * Math.pow(lambda, k)) / factorial(k)] *)
Definition pStandard (Math : MathObject) (lambda expLambda : float) (k : nat) : float :=
  (expLambda * Math_pow Math lambda (ofZ (Z.of_nat k))) / factorial (Z.of_nat k).

(** The body of the loop of [computePoissonPMF]: the variables it assigns
    are [probs] and [sum]. *)
Definition pmfStep (Math : MathObject) (lambda pi expLambda : float) (k : nat)
    (st : list float * float) : list float * float :=
  let '(probs, sum) := st in
  let pStandard := pStandard Math lambda expLambda k in
  let pZip := if decide (k = 0%nat) then pi + (1 - pi) * pStandard
              else (1 - pi) * pStandard in
  (probs ++ [pZip], sum + pZip).

Definition computePoissonPMF (Math : MathObject) (lambda : float) (maxGoals : Z)
    (pi : float) : PMF :=
  let expLambda := Math_exp Math (- lambda) in
  let '(probs, sum) :=
    forEach (upto maxGoals) (pmfStep Math lambda pi expLambda) ([], 0) in
  {| probs := probs; tail := 1 - sum |}.

(** ** Joint distribution *)

(** [matrix[h][a]] *)
Definition cell (matrix : list (list float)) (h a : nat) : float :=
  (matrix !!! h) !!! a.

(** The body of the inner loop of [computeJointDistribution], which assigns
    [matrix] and [totalProb]. *)
Definition jointCell (distH distA : PMF) (i j : nat)
    (st : list (list float) * float) : list (list float) * float :=
  let '(matrix, totalProb) := st in
  let jointP := (probs distH !!! i) * (probs distA !!! j) in
  (alter (fun row => arraySet row j jointP) i matrix, totalProb + jointP).

(** The body of the outer loop: [matrix[i] = []], then the inner loop. *)
Definition jointRow (distH distA : PMF) (maxGoals : Z) (i : nat)
    (st : list (list float) * float) : list (list float) * float :=
  let '(matrix, totalProb) := st in
  forEach (upto maxGoals) (jointCell distH distA i) (arraySet matrix i [], totalProb).

(** The two nested loops, from [matrix = []] and [totalProb = 0]. *)
Definition jointGrid (distH distA : PMF) (maxGoals : Z) : list (list float) * float :=
  forEach (upto maxGoals) (jointRow distH distA maxGoals) ([], 0).

(** ** Market derivation: what the two variants share *)

(** [for (let t = 0; t <= maxTotal; t++) m.exactTotals[t] = 0]. *)
Definition initExactTotals (maxTotal : Z) : list float :=
  forEach (upto maxTotal) (fun t exactTotals => arraySet exactTotals t 0) [].

(** [STANDARD_LINES.forEach(line => { if (total > line)
    m.overs[line] = (m.overs[line] || 0) + p; })]. *)
Definition addOvers (total : nat) (p : float) (overs : gmap Q float) : gmap Q float :=
  forEach STANDARD_LINES
    (fun line overs =>
       if totalOver total line
       then <[line := orZero (default 0 (overs !! line)) + p]> overs
       else overs)
    overs.

(** ** Margin *)

Definition applyMargin (probs : list float) (marginPct : float) : list float :=
  let marginDecimal := marginPct / 100 in
  let targetSum := 1 + marginDecimal in
  let currentSum := reduceSum probs in
  (fun p => if currentSum =? 0 then 0 else (p / currentSum) * targetSum)
    <$> probs.

(** ** Half-time / full-time *)

Record OverUnder : Type := { over : float; under : float }.

Record HtFt : Type := {
  htft : gmap string float;
  htftGoals : gmap Q (gmap string OverUnder)
}.

(** The object literal that initialises [htft], in source order. *)
Definition htftInit : list (string * float) :=
  [("H-H", 0); ("H-D", 0); ("H-A", 0);
   ("D-H", 0); ("D-D", 0); ("D-A", 0);
   ("A-H", 0); ("A-D", 0); ("A-A", 0)].

(** [Object.keys(htft)] *)
Definition htftKeys : list string := htftInit.*1.

Definition htftGoalsInit : gmap Q (gmap string OverUnder) :=
  forEach STANDARD_LINES
    (fun line htftGoals =>
       <[line := forEach htftKeys
                   (fun key tbl => <[key := {| over := 0; under := 0 |}]> tbl) ∅]>
         htftGoals)
    ∅.

Definition addOver (prob : float) (ou : OverUnder) : OverUnder :=
  {| over := over ou + prob; under := under ou |}.

Definition addUnder (prob : float) (ou : OverUnder) : OverUnder :=
  {| over := over ou; under := under ou + prob |}.

(** The statements of the innermost loop body after the two [continue]
    guards. *)
Definition htftAdd (h1_h h1_a h2_h h2_a : nat) (pHT p2H : float) (st : HtFt) : HtFt :=
  let htResult := resultOf h1_h h1_a in
  let ft_h := (h1_h + h2_h)%nat in
  let ft_a := (h1_a + h2_a)%nat in
  let ftTotal := (ft_h + ft_a)%nat in
  let ftResult := resultOf ft_h ft_a in
  let prob := pHT * p2H in
  let key := htResult +:+ "-" +:+ ftResult in
  {| htft := <[key := (htft st !!! key) + prob]> (htft st);
     htftGoals :=
       forEach STANDARD_LINES
         (fun line htftGoals =>
            if totalOver ftTotal line
            then alter (alter (addOver prob) key) line htftGoals
            else alter (alter (addUnder prob) key) line htftGoals)
         (htftGoals st) |}.

(** ** The variant with one margin per period (first script) *)
Module Dutching.

Record JointDist : Type := { matrix : list (list float); tailProb : float }.

Definition computeJointDistribution (Math : MathObject)
    (lambdaH lambdaA piH piA : float) (maxGoals : Z) : JointDist :=
  let distH := computePoissonPMF Math lambdaH maxGoals piH in
  let distA := computePoissonPMF Math lambdaA maxGoals piA in
  let '(matrix, totalProb) := jointGrid distH distA maxGoals in
  {| matrix := matrix; tailProb := 1 - totalProb |}.

Record Markets : Type := {
  homeWin : float; draw : float; awayWin : float;
  bttsYes : float; bttsNo : float;
  winToNilHome : float; winToNilAway : float;
  cleanSheetHome : float; cleanSheetAway : float;
  overs : gmap Q float;
  exactTotals : list float;
  map : gmap string float
}.

(** The object [m] before the grid is scanned. *)
Definition initMarkets (maxTotal : Z) : Markets :=
  {| homeWin := 0; draw := 0; awayWin := 0;
     bttsYes := 0; bttsNo := 0;
     winToNilHome := 0; winToNilAway := 0;
     cleanSheetHome := 0; cleanSheetAway := 0;
     overs := ∅;
     exactTotals := initExactTotals maxTotal;
     map := ∅ |}.

(** The body of the inner loop of [deriveMarkets] at cell [(h, a)]. *)
Definition marketsCell (matrix : list (list float)) (maxTotal : Z) (h a : nat)
    (m : Markets) : Markets :=
  let p := cell matrix h a in
  let total := (h + a)%nat in
  {| map := <[scoreKey h a := p]> (map m);
     homeWin := if decide (h > a)%nat then homeWin m + p else homeWin m;
     draw := if decide (h > a)%nat then draw m
             else if decide (h = a) then draw m + p else draw m;
     awayWin := if decide (h > a)%nat then awayWin m
                else if decide (h = a) then awayWin m else awayWin m + p;
     bttsYes := if decide (h > 0 ∧ a > 0)%nat then bttsYes m + p else bttsYes m;
     bttsNo := bttsNo m;
     winToNilHome := if decide (h > 0 ∧ a = 0)%nat then winToNilHome m + p
                     else winToNilHome m;
     winToNilAway := if decide (a > 0 ∧ h = 0)%nat then winToNilAway m + p
                     else winToNilAway m;
     cleanSheetHome := if decide (a = 0)%nat then cleanSheetHome m + p
                       else cleanSheetHome m;
     cleanSheetAway := if decide (h = 0)%nat then cleanSheetAway m + p
                       else cleanSheetAway m;
     exactTotals := if decide (Z.of_nat total ≤ maxTotal)%Z
                    then alter (fun x => x + p) total (exactTotals m)
                    else exactTotals m;
     overs := addOvers total p (overs m) |}.

(** The grid scan: the two nested loops over [h] and [a]. *)
Definition scanMarkets (matrix : list (list float)) : Markets :=
  let size := length matrix in
  let maxTotal := ((Z.of_nat size - 1) * 2)%Z in
  forEach (below size) (fun h =>
  forEach (below size) (fun a => marketsCell matrix maxTotal h a))
  (initMarkets maxTotal).

(** [m.bttsNo = 1 - m.bttsYes] *)
Definition setBttsNo (m : Markets) : Markets :=
  {| map := map m;
     homeWin := homeWin m; draw := draw m; awayWin := awayWin m;
     bttsYes := bttsYes m; bttsNo := 1 - bttsYes m;
     winToNilHome := winToNilHome m; winToNilAway := winToNilAway m;
     cleanSheetHome := cleanSheetHome m; cleanSheetAway := cleanSheetAway m;
     exactTotals := exactTotals m; overs := overs m |}.

(** The normalisation of 1X2 by its own sum. *)
Definition normalise1x2 (m : Markets) : Markets :=
  let sum1x2 := homeWin m + draw m + awayWin m in
  if 0 <? sum1x2
  then {| map := map m;
          homeWin := homeWin m / sum1x2;
          draw := draw m / sum1x2;
          awayWin := awayWin m / sum1x2;
          bttsYes := bttsYes m; bttsNo := bttsNo m;
          winToNilHome := winToNilHome m; winToNilAway := winToNilAway m;
          cleanSheetHome := cleanSheetHome m; cleanSheetAway := cleanSheetAway m;
          exactTotals := exactTotals m; overs := overs m |}
  else m.

Definition deriveMarkets (jointDist : JointDist) : Markets :=
  normalise1x2 (setBttsNo (scanMarkets (matrix jointDist))).

Definition deriveHalfTimeFullTime (jointH1 jointH2 : JointDist) : HtFt :=
  let matrixH1 := matrix jointH1 in
  let matrixH2 := matrix jointH2 in
  let size := length matrixH1 in
  forEach (below size) (fun h1_h =>
  forEach (below size) (fun h1_a st =>
    let pHT := cell matrixH1 h1_h h1_a in
    if pHT =? 0 then st else
    forEach (below size) (fun h2_h =>
    forEach (below size) (fun h2_a st =>
      let p2H := cell matrixH2 h2_h h2_a in
      if p2H =? 0 then st else
      htftAdd h1_h h1_a h2_h h2_a pHT p2H st)) st))
  {| htft := list_to_map htftInit; htftGoals := htftGoalsInit |}.

(** ** Reading the form *)

(** What [getInputs] returns. *)
Record Inputs : Type := {
  homeTeam : string; awayTeam : string;
  lambdaHomeFull : float; lambdaAwayFull : float;
  piHome : float; piAway : float;
  halfFactor : float;
  marginFull : float; marginH1 : float; marginH2 : float;
  isValid : bool; errorMsg : string
}.

(** The page's form as [getInputs] reads it: the value of the checked
    [inputMode] radio button, the [useZip] check box, the two name
    fields, and every numeric field after [parseFloat], which gives NaN
    for a field that is empty or does not start with a number. *)
Record Form : Type := {
  mode : string; useZip : bool;
  homeTeamField : string; awayTeamField : string;
  xgHome : float; xgAway : float;
  supremacy : float; expectancy : float;
  piHomeField : float; piAwayField : float;
  halfFactorField : float;
  marginFullField : float; marginH1Field : float; marginH2Field : float
}.

(** [data.isValid = false; data.errorMsg = msg] *)
Definition invalid (msg : string) (data : Inputs) : Inputs :=
  {| homeTeam := homeTeam data; awayTeam := awayTeam data;
     lambdaHomeFull := lambdaHomeFull data; lambdaAwayFull := lambdaAwayFull data;
     piHome := piHome data; piAway := piAway data;
     halfFactor := halfFactor data;
     marginFull := marginFull data; marginH1 := marginH1 data; marginH2 := marginH2 data;
     isValid := false; errorMsg := msg |}.

(** [data.lambdaHomeFull = h; data.lambdaAwayFull = a] *)
Definition withLambdas (h a : float) (data : Inputs) : Inputs :=
  {| homeTeam := homeTeam data; awayTeam := awayTeam data;
     lambdaHomeFull := h; lambdaAwayFull := a;
     piHome := piHome data; piAway := piAway data;
     halfFactor := halfFactor data;
     marginFull := marginFull data; marginH1 := marginH1 data; marginH2 := marginH2 data;
     isValid := isValid data; errorMsg := errorMsg data |}.

(** [data.piHome = h; data.piAway = a] *)
Definition withPis (h a : float) (data : Inputs) : Inputs :=
  {| homeTeam := homeTeam data; awayTeam := awayTeam data;
     lambdaHomeFull := lambdaHomeFull data; lambdaAwayFull := lambdaAwayFull data;
     piHome := h; piAway := a;
     halfFactor := halfFactor data;
     marginFull := marginFull data; marginH1 := marginH1 data; marginH2 := marginH2 data;
     isValid := isValid data; errorMsg := errorMsg data |}.

(** The safety clamp: [if (data.marginFull < 0) data.marginFull = 0], and
    the same for the two half margins. *)
Definition clampMargins (data : Inputs) : Inputs :=
  {| homeTeam := homeTeam data; awayTeam := awayTeam data;
     lambdaHomeFull := lambdaHomeFull data; lambdaAwayFull := lambdaAwayFull data;
     piHome := piHome data; piAway := piAway data;
     halfFactor := halfFactor data;
     marginFull := if marginFull data <? 0 then 0 else marginFull data;
     marginH1 := if marginH1 data <? 0 then 0 else marginH1 data;
     marginH2 := if marginH2 data <? 0 then 0 else marginH2 data;
     isValid := isValid data; errorMsg := errorMsg data |}.

Definition getInputs (form : Form) : Inputs :=
  let data :=
    {| homeTeam := orDefault (homeTeamField form) "Home";
       awayTeam := orDefault (awayTeamField form) "Away";
       lambdaHomeFull := 0; lambdaAwayFull := 0;
       piHome := 0; piAway := 0;
       halfFactor := halfFactorField form;
       marginFull := orZero (marginFullField form);
       marginH1 := orZero (marginH1Field form);
       marginH2 := orZero (marginH2Field form);
       isValid := true; errorMsg := "" |} in
  let data :=
    if decide (mode form = "xg") then
      let data := withLambdas (xgHome form) (xgAway form) data in
      if (lambdaHomeFull data <? 0) || (lambdaAwayFull data <? 0)
      then invalid "xG values must be non-negative." data
      else data
    else
      let sup := supremacy form in
      let exp := expectancy form in
      if exp <=? 0
      then invalid "Total expectancy must be > 0." data
      else
        let data := withLambdas ((exp + sup) / 2) ((exp - sup) / 2) data in
        if (lambdaHomeFull data <? 0) || (lambdaAwayFull data <? 0)
        then invalid "Implied team goals negative." data
        else data in
  let data :=
    if useZip form then
      let data := withPis (piHomeField form) (piAwayField form) data in
      if (piHome data <? 0) || (1 <? piHome data) || (piAway data <? 0) || (1 <? piAway data)
      then invalid "Pi must be 0-1." data
      else data
    else data in
  clampMargins data.

(** A form in supremacy mode whose expectancy field is empty. *)
Definition emptyExpectancy : Form :=
  {| mode := "supexp"; useZip := false;
     homeTeamField := ""; awayTeamField := "";
     xgHome := 1.5; xgAway := 1.2;
     supremacy := 0.3; expectancy := nan;
     piHomeField := 0; piAwayField := 0;
     halfFactorField := 0.45;
     marginFullField := 5; marginH1Field := 5; marginH2Field := 5 |}.

End Dutching.

(** ** The variant with a single global margin (second script) *)
Module SingleMargin.

Record JointDist : Type := {
  matrix : list (list float);
  tailProb : float;
  distH : PMF;
  distA : PMF
}.

Definition computeJointDistribution (Math : MathObject)
    (lambdaH lambdaA piH piA : float) (maxGoals : Z) : JointDist :=
  let distH := computePoissonPMF Math lambdaH maxGoals piH in
  let distA := computePoissonPMF Math lambdaA maxGoals piA in
  let '(matrix, totalProb) := jointGrid distH distA maxGoals in
  {| matrix := matrix; tailProb := 1 - totalProb; distH := distH; distA := distA |}.

Record Markets : Type := {
  homeWin : float; draw : float; awayWin : float;
  bttsYes : float; bttsNo : float;
  winToNilHome : float; winToNilAway : float;
  cleanSheetHome : float; cleanSheetAway : float;
  overs : gmap Q float;
  exactTotals : list float
}.

(** The object [markets] before the grid is scanned. *)
Definition initMarkets (maxTotal : Z) : Markets :=
  {| homeWin := 0; draw := 0; awayWin := 0;
     bttsYes := 0; bttsNo := 0;
     winToNilHome := 0; winToNilAway := 0;
     cleanSheetHome := 0; cleanSheetAway := 0;
     overs := ∅;
     exactTotals := initExactTotals maxTotal |}.

(** The body of the inner loop of [deriveMarkets] at cell [(h, a)]. *)
Definition marketsCell (matrix : list (list float)) (maxTotal : Z) (h a : nat)
    (m : Markets) : Markets :=
  let p := cell matrix h a in
  let total := (h + a)%nat in
  {| homeWin := if decide (h > a)%nat then homeWin m + p else homeWin m;
     draw := if decide (h > a)%nat then draw m
             else if decide (h = a) then draw m + p else draw m;
     awayWin := if decide (h > a)%nat then awayWin m
                else if decide (h = a) then awayWin m else awayWin m + p;
     bttsYes := if decide (h > 0 ∧ a > 0)%nat then bttsYes m + p else bttsYes m;
     bttsNo := bttsNo m;
     winToNilHome := if decide (h > 0 ∧ a = 0)%nat then winToNilHome m + p
                     else winToNilHome m;
     winToNilAway := if decide (a > 0 ∧ h = 0)%nat then winToNilAway m + p
                     else winToNilAway m;
     cleanSheetHome := if decide (a = 0)%nat then cleanSheetHome m + p
                       else cleanSheetHome m;
     cleanSheetAway := if decide (h = 0)%nat then cleanSheetAway m + p
                       else cleanSheetAway m;
     exactTotals := if decide (Z.of_nat total ≤ maxTotal)%Z
                    then alter (fun x => x + p) total (exactTotals m)
                    else exactTotals m;
     overs := addOvers total p (overs m) |}.

(** The grid scan: the two nested loops over [h] and [a]. *)
Definition scanMarkets (matrix : list (list float)) : Markets :=
  let size := length matrix in
  let maxTotal := ((Z.of_nat size - 1) * 2)%Z in
  forEach (below size) (fun h =>
  forEach (below size) (fun a => marketsCell matrix maxTotal h a))
  (initMarkets maxTotal).

(** [markets.bttsNo = 1 - markets.bttsYes] *)
Definition setBttsNo (m : Markets) : Markets :=
  {| homeWin := homeWin m; draw := draw m; awayWin := awayWin m;
     bttsYes := bttsYes m; bttsNo := 1 - bttsYes m;
     winToNilHome := winToNilHome m; winToNilAway := winToNilAway m;
     cleanSheetHome := cleanSheetHome m; cleanSheetAway := cleanSheetAway m;
     exactTotals := exactTotals m; overs := overs m |}.

(** The normalisation of 1X2 by its own sum. *)
Definition normalise1x2 (m : Markets) : Markets :=
  let sum1x2 := homeWin m + draw m + awayWin m in
  if 0 <? sum1x2
  then {| homeWin := homeWin m / sum1x2;
          draw := draw m / sum1x2;
          awayWin := awayWin m / sum1x2;
          bttsYes := bttsYes m; bttsNo := bttsNo m;
          winToNilHome := winToNilHome m; winToNilAway := winToNilAway m;
          cleanSheetHome := cleanSheetHome m; cleanSheetAway := cleanSheetAway m;
          exactTotals := exactTotals m; overs := overs m |}
  else m.

Definition deriveMarkets (jointDist : JointDist) : Markets :=
  normalise1x2 (setBttsNo (scanMarkets (matrix jointDist))).

(** ** Reading the form *)

(** What [getInputs] returns. *)
Record Inputs : Type := {
  homeTeam : string; awayTeam : string;
  lambdaHomeFull : float; lambdaAwayFull : float;
  piHome : float; piAway : float;
  halfFactor : float;
  marginPct : float;
  isValid : bool; errorMsg : string
}.

(** The page's form as [getInputs] reads it: the value of the checked
    [inputMode] radio button, the [useZip] check box, the two name
    fields, and every numeric field after [parseFloat], which gives NaN
    for a field that is empty or does not start with a number. *)
Record Form : Type := {
  mode : string; useZip : bool;
  homeTeamField : string; awayTeamField : string;
  xgHome : float; xgAway : float;
  supremacy : float; expectancy : float;
  piHomeField : float; piAwayField : float;
  halfFactorField : float;
  marginPctField : float
}.

(** [data.isValid = false; data.errorMsg = msg] *)
Definition invalid (msg : string) (data : Inputs) : Inputs :=
  {| homeTeam := homeTeam data; awayTeam := awayTeam data;
     lambdaHomeFull := lambdaHomeFull data; lambdaAwayFull := lambdaAwayFull data;
     piHome := piHome data; piAway := piAway data;
     halfFactor := halfFactor data;
     marginPct := marginPct data;
     isValid := false; errorMsg := msg |}.

(** [data.lambdaHomeFull = h; data.lambdaAwayFull = a] *)
Definition withLambdas (h a : float) (data : Inputs) : Inputs :=
  {| homeTeam := homeTeam data; awayTeam := awayTeam data;
     lambdaHomeFull := h; lambdaAwayFull := a;
     piHome := piHome data; piAway := piAway data;
     halfFactor := halfFactor data;
     marginPct := marginPct data;
     isValid := isValid data; errorMsg := errorMsg data |}.

(** [data.piHome = h; data.piAway = a] *)
Definition withPis (h a : float) (data : Inputs) : Inputs :=
  {| homeTeam := homeTeam data; awayTeam := awayTeam data;
     lambdaHomeFull := lambdaHomeFull data; lambdaAwayFull := lambdaAwayFull data;
     piHome := h; piAway := a;
     halfFactor := halfFactor data;
     marginPct := marginPct data;
     isValid := isValid data; errorMsg := errorMsg data |}.

(** [if (data.marginPct < 0) data.marginPct = 0] *)
Definition clampMargins (data : Inputs) : Inputs :=
  {| homeTeam := homeTeam data; awayTeam := awayTeam data;
     lambdaHomeFull := lambdaHomeFull data; lambdaAwayFull := lambdaAwayFull data;
     piHome := piHome data; piAway := piAway data;
     halfFactor := halfFactor data;
     marginPct := if marginPct data <? 0 then 0 else marginPct data;
     isValid := isValid data; errorMsg := errorMsg data |}.

Definition getInputs (form : Form) : Inputs :=
  let data :=
    {| homeTeam := orDefault (homeTeamField form) "Home";
       awayTeam := orDefault (awayTeamField form) "Away";
       lambdaHomeFull := 0; lambdaAwayFull := 0;
       piHome := 0; piAway := 0;
       halfFactor := halfFactorField form;
       marginPct := marginPctField form;
       isValid := true; errorMsg := "" |} in
  let data :=
    if decide (mode form = "xg") then
      let data := withLambdas (xgHome form) (xgAway form) data in
      if (lambdaHomeFull data <? 0) || (lambdaAwayFull data <? 0)
      then invalid "xG values must be non-negative." data
      else data
    else
      let sup := supremacy form in
      let exp := expectancy form in
      if exp <=? 0
      then invalid "Total expectancy must be greater than 0." data
      else
        let data := withLambdas ((exp + sup) / 2) ((exp - sup) / 2) data in
        if (lambdaHomeFull data <? 0) || (lambdaAwayFull data <? 0)
        then invalid "Implied team goals are negative. Check Supremacy vs Expectancy." data
        else data in
  let data :=
    if useZip form then
      let data := withPis (piHomeField form) (piAwayField form) data in
      if (piHome data <? 0) || (1 <? piHome data) || (piAway data <? 0) || (1 <? piAway data)
      then invalid "Pi (Zero-Inflation) must be between 0 and 1." data
      else data
    else data in
  clampMargins data.

End SingleMargin.

(** ** Notions for the properties of the binary64 engine *)

(** [n!] as an integer. *)
Fixpoint exactFactorial (n : nat) : Z :=
  match n with
  | O => 1%Z
  | S k => (Z.of_nat (S k) * exactFactorial k)%Z
  end.

(** The entry the loop of [computePoissonPMF] pushes at counter [k]. *)
Definition pZip (Math : MathObject) (lambda pi : float) (k : nat) : float :=
  let pStandard := pStandard Math lambda (Math_exp Math (- lambda)) k in
  if decide (k = 0%nat) then pi + (1 - pi) * pStandard else (1 - pi) * pStandard.

(** The row of products the inner loop of [computeJointDistribution] builds. *)
Definition productRow (distH distA : PMF) (n i : nat) : list float :=
  (fun j => (probs distH !!! i) * (probs distA !!! j)) <$> seq 0 n.

(** A [(G+1) x (G+1)] grid. *)
Definition square (n : nat) (m : list (list float)) : Prop :=
  length m = n /\ Forall (fun row => length row = n) m.

(** A variable to which the loop adds, in the order of the scan, the cell
    of every scoreline that satisfies [sel]. *)
Definition accumulated (sel : nat -> nat -> bool) (matrix : list (list float)) : float :=
  forEach (gridCells (length matrix))
    (fun c acc => if sel c.1 c.2 then acc + cell matrix c.1 c.2 else acc) 0.

(** The running total of the products of all pairs of entries, in the order
    of the two nested loops of [computeJointDistribution]. *)
Definition accumulatedProducts (distH distA : PMF) (maxGoals : Z) : float :=
  forEach (list_prod (upto maxGoals) (upto maxGoals))
    (fun c acc => acc + (probs distH !!! c.1) * (probs distA !!! c.2)) 0.

(** A variable to which the four nested loops of [deriveHalfTimeFullTime]
    add, in their order, the product of every pair of cells that are both
    different from zero and that satisfy [sel]. *)
Definition accumulatedPairs (sel : (nat * nat) * (nat * nat) -> bool)
    (matrixH1 matrixH2 : list (list float)) : float :=
  forEach (cellPairs (length matrixH1))
    (fun q acc =>
       let pHT := cell matrixH1 q.1.1 q.1.2 in
       let p2H := cell matrixH2 q.2.1 q.2.2 in
       if (pHT =? 0) || (p2H =? 0) then acc
       else if sel q then acc + pHT * p2H else acc) 0.

(** One visit of the four nested loops of [deriveHalfTimeFullTime], with its
    two [continue] guards. *)
Definition htftVisit (matrixH1 matrixH2 : list (list float))
    (q : (nat * nat) * (nat * nat)) (st : HtFt) : HtFt :=
  let pHT := cell matrixH1 q.1.1 q.1.2 in
  let p2H := cell matrixH2 q.2.1 q.2.2 in
  if (pHT =? 0) || (p2H =? 0) then st
  else htftAdd q.1.1 q.1.2 q.2.1 q.2.2 pHT p2H st.

(** [htftGoals[line][key]], when it is there. *)
Definition entry (st : HtFt) (line : Q) (key : string) : option OverUnder :=
  htftGoals st !! line ≫= fun tbl => tbl !! key.

(** What a visit adds for one line: [prob] goes to over or to under. *)
Definition bump (total : nat) (prob : float) (line : Q) : OverUnder -> OverUnder :=
  if totalOver total line then addOver prob else addUnder prob.

(** The sum of the nine entries of [htft], in the order of its keys. *)
Definition htftTotal (tbl : gmap string float) : float :=
  reduceSum ((fun key => tbl !!! key) <$> htftKeys).

(** The sum of all cells of a grid, row after row. *)
Definition gridSum (m : list (list float)) : float := reduceSum (concat m).

(** What the scan of [deriveMarkets] does to [exactTotals] at one cell. *)
Definition totalsStep (matrix : list (list float)) (maxTotal : Z) (c : nat * nat)
    (exactTotals : list float) : list float :=
  if decide (Z.of_nat (c.1 + c.2) ≤ maxTotal)%Z
  then alter (fun x => x + cell matrix c.1 c.2) (c.1 + c.2)%nat exactTotals
  else exactTotals.

(** The full-time total of a pair of half scores is above the line. *)
Definition pairOver (line : Q) (q : (nat * nat) * (nat * nat)) : bool :=
  totalOver (q.1.1 + q.2.1 + (q.1.2 + q.2.2)) line.

(** The pair of half scores has the half-time / full-time key [key]. *)
Definition pairKey (key : string) (q : (nat * nat) * (nat * nat)) : bool :=
  bool_decide (htftKeyOf q = key).

(** Two half grids and two goal distributions with entries read from
    decimal literals, used as examples. *)
Definition exampleFirstHalf : Dutching.JointDist :=
  {| Dutching.matrix := [[0.1; 0.1]; [0.1; 0.7]]; Dutching.tailProb := 0 |}.

Definition exampleSecondHalf : Dutching.JointDist :=
  {| Dutching.matrix := [[0.1; 0.5]; [0.1; 0.3]]; Dutching.tailProb := 0 |}.

Definition exampleHome : PMF := {| probs := [0.1; 0.1]; tail := 0.8 |}.
Definition exampleAway : PMF := {| probs := [0.1; 0.3]; tail := 0.6 |}.


End Binary64.

(** Opening the binary64 [getInputs]: the local bindings and the field
    updates are reduced, the tests are left to be decided. *)
Ltac open_getInputs_binary64 :=
  unfold Binary64.Dutching.getInputs, Binary64.SingleMargin.getInputs;
  cbv beta zeta iota delta
    [Binary64.Dutching.clampMargins Binary64.Dutching.withLambdas
     Binary64.Dutching.withPis Binary64.Dutching.invalid
     Binary64.Dutching.lambdaHomeFull Binary64.Dutching.lambdaAwayFull
     Binary64.Dutching.piHome Binary64.Dutching.piAway
     Binary64.Dutching.marginFull Binary64.Dutching.marginH1 Binary64.Dutching.marginH2
     Binary64.Dutching.isValid Binary64.Dutching.errorMsg Binary64.Dutching.halfFactor
     Binary64.Dutching.homeTeam Binary64.Dutching.awayTeam
     Binary64.SingleMargin.clampMargins Binary64.SingleMargin.withLambdas
     Binary64.SingleMargin.withPis Binary64.SingleMargin.invalid
     Binary64.SingleMargin.lambdaHomeFull Binary64.SingleMargin.lambdaAwayFull
     Binary64.SingleMargin.piHome Binary64.SingleMargin.piAway
     Binary64.SingleMargin.marginPct Binary64.SingleMargin.isValid
     Binary64.SingleMargin.errorMsg Binary64.SingleMargin.halfFactor
     Binary64.SingleMargin.homeTeam Binary64.SingleMargin.awayTeam].

(** The step of an accumulator of [deriveMarkets] on binary64 numbers: the
    field after one cell is the field before, plus the cell when the
    scoreline is selected. *)
Ltac field_of_scan :=
  intros; unfold isHomeWin, isDraw, isAwayWin, bothScore; cbn;
  unfold isWinToNilHome, isWinToNilAway, homeKeepsCleanSheet, awayKeepsCleanSheet;
  repeat (case_bool_decide || case_decide); first [reflexivity | lia | tauto].

(** * Properties of the engine *)

(** ** Sums and loops: general facts *)

Lemma forEach_nil {A S : Type} (body : A -> S -> S) (s : S) :
  forEach [] body s = s.
Proof. reflexivity. Qed.

Lemma forEach_cons {A S : Type} (body : A -> S -> S) x xs (s : S) :
  forEach (x :: xs) body s = forEach xs body (body x s).
Proof. reflexivity. Qed.

Lemma forEach_app {A S : Type} (body : A -> S -> S) xs ys (s : S) :
  forEach (xs ++ ys) body s = forEach ys body (forEach xs body s).
Proof. unfold forEach. apply fold_left_app. Qed.

Lemma forEach_snoc {A S : Type} (body : A -> S -> S) xs x (s : S) :
  forEach (xs ++ [x]) body s = body x (forEach xs body s).
Proof. rewrite forEach_app. reflexivity. Qed.

Lemma Rsum_nil : Rsum [] = 0.
Proof. reflexivity. Qed.

Lemma Rsum_cons x l : Rsum (x :: l) = x + Rsum l.
Proof. reflexivity. Qed.

Lemma Rsum_app l1 l2 : Rsum (l1 ++ l2) = Rsum l1 + Rsum l2.
Proof.
  induction l1 as [|x l1 IH]; simpl.
  - rewrite Rsum_nil. lra.
  - rewrite !Rsum_cons, IH. lra.
Qed.

Lemma Rsum_snoc l x : Rsum (l ++ [x]) = Rsum l + x.
Proof. rewrite Rsum_app, Rsum_cons, Rsum_nil. lra. Qed.

(** ** Factorials *)

Lemma factorial_loop (n j : nat) :
  forEach (seqZ (Z.of_nat (S n)) (Z.of_nat j)) (fun i res => res * IZR i) (INR (fact n))
  = INR (fact (n + j)).
Proof.
  induction j as [|j IH].
  - rewrite seqZ_nil by lia. rewrite forEach_nil. f_equal. f_equal. lia.
  - rewrite seqZ_S, forEach_snoc, IH.
    replace (n + S j)%nat with (S (n + j)) by lia.
    change (fact (S (n + j))) with (S (n + j) * fact (n + j))%nat.
    rewrite mult_INR. rewrite <- Nat2Z.inj_add, <- INR_IZR_INZ.
    replace (S n + j)%nat with (S (n + j)) by lia. lra.
Qed.

Lemma factorial_cached (k : nat) :
  (k < 8)%nat -> factorialCache !!! k = INR (fact k).
Proof.
  intros Hk.
  do 8 (destruct k as [|k]; [rewrite INR_IZR_INZ; vm_compute; reflexivity|]).
  lia.
Qed.

Lemma factorial_fact (k : nat) : factorial (Z.of_nat k) = INR (fact k).
Proof.
  unfold factorial.
  destruct (decide (Z.of_nat k < 0)%Z) as [Hneg|_]; [lia|].
  change (length factorialCache) with 8%nat.
  destruct (decide (Z.of_nat k < Z.of_nat 8)%Z) as [Hlt|Hge].
  - rewrite Nat2Z.id. apply factorial_cached. lia.
  - change (8 - 1)%nat with 7%nat.
    rewrite (factorial_cached 7) by lia.
    unfold fromTo.
    replace (Z.of_nat k - Z.of_nat 8 + 1)%Z with (Z.of_nat (k - 7)) by lia.
    rewrite (factorial_loop 7 (k - 7)). f_equal. f_equal. lia.
Qed.

(** ** The distribution builder *)

Lemma pmfStep_zip lambda pi k ps s :
  pmfStep lambda pi (exp (- lambda)) k (ps, s)
  = (ps ++ [zipMass lambda pi k], s + zipMass lambda pi k).
Proof.
  unfold pmfStep, zipMass, poissonMass. rewrite factorial_fact.
  destruct k as [|k]; reflexivity.
Qed.

Lemma pmf_loop lambda pi xs ps s :
  forEach xs (pmfStep lambda pi (exp (- lambda))) (ps, s)
  = (ps ++ (zipMass lambda pi <$> xs), s + Rsum (zipMass lambda pi <$> xs)).
Proof.
  revert ps s. induction xs as [|k xs IH]; intros ps s.
  - rewrite forEach_nil, app_nil_r. simpl. rewrite Rsum_nil. f_equal. lra.
  - rewrite forEach_cons, pmfStep_zip, IH. rewrite fmap_cons, Rsum_cons.
    rewrite <- app_assoc. simpl. f_equal. lra.
Qed.

Lemma computePoissonPMF_probs lambda maxGoals pi :
  probs (computePoissonPMF lambda maxGoals pi) = zipMass lambda pi <$> upto maxGoals.
Proof. unfold computePoissonPMF. rewrite pmf_loop. reflexivity. Qed.


Lemma length_upto n : length (upto n) = Z.to_nat (n + 1).
Proof. unfold upto. apply length_seq. Qed.

Lemma lookup_upto n k : (Z.of_nat k <= n)%Z -> upto n !! k = Some k.
Proof. intros Hk. unfold upto. apply lookup_seq. split; [reflexivity | lia]. Qed.

Lemma computePoissonPMF_length lambda maxGoals pi :
  length (probs (computePoissonPMF lambda maxGoals pi)) = Z.to_nat (maxGoals + 1).
Proof. rewrite computePoissonPMF_probs, length_fmap. apply length_upto. Qed.

Lemma computePoissonPMF_lookup lambda maxGoals pi k :
  (Z.of_nat k <= maxGoals)%Z ->
  probs (computePoissonPMF lambda maxGoals pi) !! k = Some (zipMass lambda pi k).
Proof.
  intros Hk. rewrite computePoissonPMF_probs, list_lookup_fmap, lookup_upto by exact Hk.
  reflexivity.
Qed.

Lemma computePoissonPMF_lookup_total lambda maxGoals pi k :
  (Z.of_nat k <= maxGoals)%Z ->
  probs (computePoissonPMF lambda maxGoals pi) !!! k = zipMass lambda pi k.
Proof.
  intros Hk. apply list_lookup_total_correct, computePoissonPMF_lookup, Hk.
Qed.

Lemma zipMass_0 (lambda pi : R) : zipMass lambda pi 0 = pi + (1 - pi) * exp (- lambda).
Proof. unfold zipMass, poissonMass. simpl. field. Qed.

(** Scenarios A and B of the specification: the first entry of the home
    distribution for a rate of 1.5, without and with an inflation of 0.1. *)
Example scenario_A : probs (computePoissonPMF 1.5 7 0) !! 0%nat = Some (exp (- (1.5))).
Proof.
  rewrite computePoissonPMF_lookup by lia. f_equal. rewrite zipMass_0. lra.
Qed.

Example scenario_B :
  probs (computePoissonPMF 1.5 7 0.1) !! 0%nat = Some (0.1 + 0.9 * exp (- (1.5))).
Proof.
  rewrite computePoissonPMF_lookup by lia. f_equal. rewrite zipMass_0. lra.
Qed.

(** ** The joint matrix builder *)

Lemma Rsum_scale (c : R) (g : nat -> R) (l : list nat) :
  Rsum ((fun j => c * g j) <$> l) = c * Rsum (g <$> l).
Proof.
  induction l as [|x l IH].
  - simpl. rewrite Rsum_nil. lra.
  - rewrite !fmap_cons, !Rsum_cons, IH. lra.
Qed.

Lemma Rsum_scale_r (c : R) (g : nat -> R) (l : list nat) :
  Rsum ((fun j => g j * c) <$> l) = Rsum (g <$> l) * c.
Proof.
  induction l as [|x l IH].
  - simpl. rewrite Rsum_nil. lra.
  - rewrite !fmap_cons, !Rsum_cons, IH. lra.
Qed.

Lemma fmap_lookup_total_below {A : Type} `{!Inhabited A} (l : list A) :
  (fun i => l !!! i) <$> below (length l) = l.
Proof.
  unfold below. apply list_eq. intros i. rewrite list_lookup_fmap.
  destruct (decide (i < length l)%nat) as [Hi|Hi].
  - rewrite lookup_seq_lt by exact Hi. simpl.
    destruct (lookup_lt_is_Some_2 l i Hi) as [x Hx].
    rewrite Hx. f_equal. apply list_lookup_total_correct. exact Hx.
  - rewrite lookup_seq_ge by lia. rewrite lookup_ge_None_2 by lia. reflexivity.
Qed.

Lemma arraySet_end {A : Type} (arr : list A) (n : nat) (x : A) :
  length arr = n -> arraySet arr n x = arr ++ [x].
Proof. intros <-. unfold arraySet. destruct (decide _) as [H|_]; [lia | reflexivity]. Qed.

Lemma length_productRow distH distA n i : length (productRow distH distA n i) = n.
Proof. unfold productRow. rewrite length_fmap, length_seq. reflexivity. Qed.

Lemma alter_last {A : Type} (f : A -> A) (l : list A) (x : A) :
  alter f (length l) (l ++ [x]) = l ++ [f x].
Proof. induction l as [|y l IH]; simpl; [reflexivity | f_equal; exact IH]. Qed.

Lemma jointCell_loop distH distA i n (M : list (list R)) (t : R) :
  length M = i ->
  forEach (seq 0 n) (jointCell distH distA i) (M ++ [[]], t)
  = (M ++ [productRow distH distA n i], t + Rsum (productRow distH distA n i)).
Proof.
  intros <-. induction n as [|n IH].
  - cbn [seq]. rewrite forEach_nil. unfold productRow. simpl. rewrite Rsum_nil. f_equal. lra.
  - rewrite seq_S, forEach_snoc, IH. simpl. unfold jointCell.
    rewrite alter_last, arraySet_end by apply length_productRow.
    unfold productRow. rewrite seq_S, fmap_app. simpl.
    rewrite Rsum_snoc. f_equal. lra.
Qed.

Lemma jointRow_loop distH distA maxGoals m :
  forEach (seq 0 m) (jointRow distH distA maxGoals) ([], 0)
  = (productRow distH distA (Z.to_nat (maxGoals + 1)) <$> seq 0 m,
     Rsum ((fun i => Rsum (productRow distH distA (Z.to_nat (maxGoals + 1)) i)) <$> seq 0 m)).
Proof.
  induction m as [|m IH].
  - reflexivity.
  - rewrite seq_S, forEach_snoc, IH. simpl. unfold jointRow.
    set (M := productRow distH distA (Z.to_nat (maxGoals + 1)) <$> seq 0 m).
    assert (HM : length M = m) by (unfold M; rewrite length_fmap, length_seq; reflexivity).
    rewrite arraySet_end by exact HM. unfold upto.
    rewrite (jointCell_loop distH distA m _ M _ HM).
    rewrite !fmap_app. simpl. rewrite Rsum_snoc. reflexivity.
Qed.

Lemma jointGrid_eq distH distA maxGoals :
  let n := Z.to_nat (maxGoals + 1) in
  jointGrid distH distA maxGoals
  = (productRow distH distA n <$> seq 0 n,
     Rsum ((fun i => Rsum (productRow distH distA n i)) <$> seq 0 n)).
Proof. unfold jointGrid, upto. apply jointRow_loop. Qed.

Lemma jointGrid_outerProduct distH distA maxGoals :
  length (probs distH) = Z.to_nat (maxGoals + 1) ->
  length (probs distA) = Z.to_nat (maxGoals + 1) ->
  outerProduct distH distA maxGoals
    (jointGrid distH distA maxGoals).1 (1 - (jointGrid distH distA maxGoals).2).
Proof.
  intros HH HA. rewrite jointGrid_eq. simpl.
  set (n := Z.to_nat (maxGoals + 1)) in *.
  split; [|split; [|split]].
  - split.
    + rewrite length_fmap, length_seq. reflexivity.
    + apply Forall_fmap, Forall_forall. intros i _. simpl.
      unfold productRow. rewrite length_fmap, length_seq. reflexivity.
  - intros h a Hh Ha. unfold cell.
    assert (Hh' : (h < n)%nat) by (unfold n; lia).
    assert (Ha' : (a < n)%nat) by (unfold n; lia).
    rewrite (list_lookup_total_correct _ h (productRow distH distA n h)).
    + unfold productRow.
      erewrite list_lookup_total_correct; [reflexivity|].
      rewrite list_lookup_fmap, lookup_seq_lt by exact Ha'. reflexivity.
    + rewrite list_lookup_fmap, lookup_seq_lt by exact Hh'. reflexivity.
  - unfold gridSum. rewrite <- list_fmap_compose. reflexivity.
  - f_equal. unfold productRow.
    erewrite list_fmap_ext; [|intros i x _; apply Rsum_scale].
    rewrite Rsum_scale_r.
    rewrite <- HH at 1. rewrite <- HA.
    fold (below (length (probs distH))). fold (below (length (probs distA))).
    rewrite !fmap_lookup_total_below. reflexivity.
Qed.

Lemma SingleMargin_joint_outerProduct (lambdaH lambdaA piH piA : R) (maxGoals : Z) :
  let j := SingleMargin.computeJointDistribution lambdaH lambdaA piH piA maxGoals in
  outerProduct (computePoissonPMF lambdaH maxGoals piH) (computePoissonPMF lambdaA maxGoals piA)
    maxGoals (SingleMargin.matrix j) (SingleMargin.tailProb j)
  /\ SingleMargin.distH j = computePoissonPMF lambdaH maxGoals piH
  /\ SingleMargin.distA j = computePoissonPMF lambdaA maxGoals piA.
Proof.
  pose proof (jointGrid_outerProduct
                (computePoissonPMF lambdaH maxGoals piH) (computePoissonPMF lambdaA maxGoals piA)
                maxGoals
                (computePoissonPMF_length _ _ _) (computePoissonPMF_length _ _ _)) as HO.
  unfold SingleMargin.computeJointDistribution.
  destruct (jointGrid _ _ maxGoals) as [matrix totalProb]. simpl. auto.
Qed.

(** ** Margin and pricing *)

(** C7.  [getOdds] is total: it returns [1/p] when [p > 0.0001] and the
    sentinel 0 otherwise; at the threshold itself it returns 0. *)
Theorem getOdds_threshold (p : R) :
  (p > 0.0001 -> getOdds p = 1 / p)
  /\ (~ p > 0.0001 -> getOdds p = 0)
  /\ getOdds 0.0001 = 0.
Proof.
  unfold getOdds. repeat split.
  - intros Hp. destruct (decide (p <= 0.0001)) as [Hle|_]; [lra | reflexivity].
  - intros Hp. destruct (decide (p <= 0.0001)) as [_|Hgt]; [reflexivity | lra].
  - destruct (decide (0.0001 <= 0.0001)) as [_|Hgt]; [reflexivity | lra].
Qed.

Lemma getOdds_threshold_witness :
  0.5 > 0.0001 /\ getOdds 0.5 = 1 / 0.5
  /\ ~ 0.00005 > 0.0001 /\ getOdds 0.00005 = 0.
Proof.
  assert (Hbig : 0.5 > 0.0001) by lra.
  assert (Hsmall : ~ 0.00005 > 0.0001) by lra.
  split; [exact Hbig|]. split; [apply (getOdds_threshold 0.5), Hbig|].
  split; [exact Hsmall|]. apply (getOdds_threshold 0.00005), Hsmall.
Defined.

(** ** [applyMargin] and the store *)

Lemma Heap_applyMargin_run (probs : Heap.loc) (marginPct : R) (h : Heap.heap) (xs : list R) :
  h !! probs = Some xs ->
  Heap.applyMargin probs marginPct h
  = Some (fresh (dom h), <[fresh (dom h) := applyMargin xs marginPct]> h).
Proof.
  intros Hxs. unfold Heap.applyMargin, Heap.bind, Heap.reduce, Heap.map.
  rewrite Hxs. simpl. rewrite Hxs. reflexivity.
Qed.

Lemma fresh_not_allocated (h : Heap.heap) (l : Heap.loc) (xs : list R) :
  h !! l = Some xs -> l <> fresh (dom h).
Proof.
  intros Hl ->. apply (is_fresh (dom h)). apply elem_of_dom. eauto.
Qed.

(** For contrast, a write changes the array it is applied to. *)
Lemma Heap_set_mutates (arr : Heap.loc) (i : nat) (x y : R) (h : Heap.heap) (xs : list R) :
  h !! arr = Some xs -> xs !! i = Some y -> x <> y ->
  exists h' : Heap.heap,
    Heap.set arr i x h = Some (tt, h') /\ h' !! arr <> Some xs.
Proof.
  intros Hxs Hi Hne. unfold Heap.set. rewrite Hxs. eexists. split; [reflexivity|].
  rewrite lookup_insert_eq. intros Heq. injection Heq as Heq.
  apply (f_equal (fun l => l !! i)) in Heq. unfold arraySet in Heq.
  destruct (decide (i < length xs)%nat) as [Hlt|Hge].
  - rewrite list_lookup_insert_eq in Heq by exact Hlt. congruence.
  - apply lookup_lt_Some in Hi. lia.
Qed.

(** C9.  [applyMargin] does not write to the array it is given, nor to any
    other array that exists when it is called: it returns a newly allocated
    array holding the rescaled sequence, and every array of the store,
    the input among them, holds afterwards what it held before.  So a
    second call with another margin reads the same probabilities. *)
Theorem applyMargin_does_not_mutate (probs : Heap.loc) (marginPct : R)
    (h : Heap.heap) (xs : list R) :
  h !! probs = Some xs ->
  exists (out : Heap.loc) (h' : Heap.heap),
    Heap.applyMargin probs marginPct h = Some (out, h')
    /\ h !! out = None
    /\ h' !! out = Some (applyMargin xs marginPct)
    /\ h' !! probs = Some xs
    /\ (forall (l : Heap.loc) (ys : list R), h !! l = Some ys -> h' !! l = Some ys)
    /\ (forall margin2 : R, exists (out2 : Heap.loc) (h2 : Heap.heap),
          Heap.applyMargin probs margin2 h' = Some (out2, h2)
          /\ h2 !! out2 = Some (applyMargin xs margin2)
          /\ h2 !! probs = Some xs).
Proof.
  intros Hxs.
  assert (Hframe : forall (g : Heap.heap) (v : list R) (l : Heap.loc) (ys : list R),
             g !! l = Some ys -> <[fresh (dom g) := v]> g !! l = Some ys).
  { intros g v l ys Hl. rewrite lookup_insert_ne; [exact Hl|].
    intros Heq. symmetry in Heq. revert Heq. eapply fresh_not_allocated. exact Hl. }
  exists (fresh (dom h)), (<[fresh (dom h) := applyMargin xs marginPct]> h).
  split; [apply Heap_applyMargin_run; exact Hxs|].
  split; [apply not_elem_of_dom, is_fresh|].
  split; [apply lookup_insert_eq|].
  split; [apply Hframe; exact Hxs|].
  split; [intros l ys; apply Hframe|].
  intros margin2.
  set (h' := <[fresh (dom h) := applyMargin xs marginPct]> h).
  assert (Hxs' : h' !! probs = Some xs) by (apply Hframe; exact Hxs).
  exists (fresh (dom h')), (<[fresh (dom h') := applyMargin xs margin2]> h').
  split; [apply Heap_applyMargin_run; exact Hxs'|].
  split; [apply lookup_insert_eq|].
  apply Hframe; exact Hxs'.
Qed.

Lemma applyMargin_does_not_mutate_witness :
  ({[ 1%positive := [0.5; 0.3; 0.2] ]} : gmap positive (list R)) !! 1%positive
  = Some [0.5; 0.3; 0.2]
  /\ exists (out : Heap.loc) (h' : Heap.heap),
       Heap.applyMargin 1%positive 10 {[ 1%positive := [0.5; 0.3; 0.2] ]} = Some (out, h')
       /\ h' !! 1%positive = Some [0.5; 0.3; 0.2].
Proof.
  assert (Hin0 : ({[ 1%positive := [0.5; 0.3; 0.2] ]} : gmap positive (list R)) !! 1%positive
                 = Some [0.5; 0.3; 0.2]) by reflexivity.
  split; [exact Hin0|].
  destruct (applyMargin_does_not_mutate 1%positive 10
              {[ 1%positive := [0.5; 0.3; 0.2] ]} [0.5; 0.3; 0.2] Hin0)
    as (out & h' & Hrun & _ & _ & Hin & _).
  exists out, h'. split; [exact Hrun | exact Hin].
Defined.

(** ** The market deriver *)

Lemma forEach_fmap {A B S : Type} (f : A -> B) (body : B -> S -> S) xs (s : S) :
  forEach (f <$> xs) body s = forEach xs (fun x => body (f x)) s.
Proof.
  revert s. induction xs as [|x xs IH]; intros s; [reflexivity|].
  rewrite fmap_cons, !forEach_cons. apply IH.
Qed.

(** Two nested loops are one loop over the pairs of counters. *)
Lemma forEach_nested {A B S : Type} (body : A -> B -> S -> S) xs ys (s : S) :
  forEach xs (fun x => forEach ys (body x)) s
  = forEach (list_prod xs ys) (fun c => body c.1 c.2) s.
Proof.
  revert s. induction xs as [|x xs IH]; intros s; [reflexivity|].
  rewrite forEach_cons. simpl list_prod. rewrite forEach_app, <- IH.
  f_equal. change (map (fun y : B => (x, y)) ys) with ((fun y : B => (x, y)) <$> ys).
  rewrite forEach_fmap. reflexivity.
Qed.


Lemma Dutching_scan_cells (matrix : list (list R)) :
  Dutching.scanMarkets matrix
  = forEach (gridCells (length matrix))
      (fun c => Dutching.marketsCell matrix ((Z.of_nat (length matrix) - 1) * 2) c.1 c.2)
      (Dutching.initMarkets ((Z.of_nat (length matrix) - 1) * 2)).
Proof. unfold Dutching.scanMarkets. apply forEach_nested. Qed.


Lemma square_quarters : square 2 [[1/4; 1/4]; [1/4; 1/4]].
Proof. split; [reflexivity | repeat constructor]. Qed.

(** ** The half-period rates *)

Lemma computeJointDistribution_cell00 (lambdaH lambdaA : R) :
  cell (SingleMargin.matrix (SingleMargin.computeJointDistribution lambdaH lambdaA 0 0 MAX_GOALS))
       0 0
  = exp (- lambdaH) * exp (- lambdaA).
Proof.
  destruct (SingleMargin_joint_outerProduct lambdaH lambdaA 0 0 MAX_GOALS) as ((_ & Hc & _) & _).
  rewrite (Hc 0%nat 0%nat) by (unfold MAX_GOALS; lia).
  rewrite !computePoissonPMF_lookup_total by (unfold MAX_GOALS; lia).
  rewrite !zipMass_0. lra.
Qed.

(** C5, as far as it holds.  On a valid input, the variant with one margin
    per period builds the first-half joint matrix from the full-match rates
    times [f] and the second-half matrix from the rates times [1 - f], for
    both sides; the variant with a single margin builds both half matrices
    from the rates times [f]. *)
Theorem calculateAndRender_half_rates :
  (forall (inputs : Dutching.Inputs) (appState : Dutching.AppState),
     Dutching.isValid inputs = true ->
     let f := Dutching.halfFactor inputs in
     let st := Dutching.calculateAndRender inputs appState in
     Dutching.jointH1 st
     = Some (Dutching.computeJointDistribution
               (Dutching.lambdaHomeFull inputs * f) (Dutching.lambdaAwayFull inputs * f)
               (Dutching.piHome inputs) (Dutching.piAway inputs) MAX_GOALS)
     /\ Dutching.jointH2 st
        = Some (Dutching.computeJointDistribution
                  (Dutching.lambdaHomeFull inputs * (1 - f))
                  (Dutching.lambdaAwayFull inputs * (1 - f))
                  (Dutching.piHome inputs) (Dutching.piAway inputs) MAX_GOALS))
  /\ (forall (inputs : SingleMargin.Inputs) (appState : SingleMargin.AppState),
        SingleMargin.isValid inputs = true ->
        let f := SingleMargin.halfFactor inputs in
        let st := SingleMargin.calculateAndRender inputs appState in
        SingleMargin.jointH1 st
        = Some (SingleMargin.computeJointDistribution
                  (SingleMargin.lambdaHomeFull inputs * f)
                  (SingleMargin.lambdaAwayFull inputs * f)
                  (SingleMargin.piHome inputs) (SingleMargin.piAway inputs) MAX_GOALS)
        /\ SingleMargin.jointH2 st
           = Some (SingleMargin.computeJointDistribution
                     (SingleMargin.lambdaHomeFull inputs * f)
                     (SingleMargin.lambdaAwayFull inputs * f)
                     (SingleMargin.piHome inputs) (SingleMargin.piAway inputs) MAX_GOALS)).
Proof.
  split; intros inputs appState Hvalid f st; subst f st.
  - unfold Dutching.calculateAndRender. rewrite Hvalid. simpl. split; reflexivity.
  - unfold SingleMargin.calculateAndRender. rewrite Hvalid. simpl. split; reflexivity.
Qed.

Lemma calculateAndRender_half_rates_witness :
  Dutching.isValid Dutching.exampleInputs = true
  /\ Dutching.jointH2
       (Dutching.calculateAndRender Dutching.exampleInputs Dutching.emptyState)
     = Some (Dutching.computeJointDistribution (1 * (1 - 1/4)) (0 * (1 - 1/4)) 0 0 MAX_GOALS)
  /\ SingleMargin.isValid SingleMargin.exampleInputs = true
  /\ SingleMargin.jointH2
       (SingleMargin.calculateAndRender SingleMargin.exampleInputs SingleMargin.emptyState)
     = Some (SingleMargin.computeJointDistribution (1 * (1/4)) (0 * (1/4)) 0 0 MAX_GOALS).
Proof.
  assert (HvD : Dutching.isValid Dutching.exampleInputs = true) by reflexivity.
  assert (HvS : SingleMargin.isValid SingleMargin.exampleInputs = true) by reflexivity.
  destruct calculateAndRender_half_rates as [HD HS].
  destruct (HD Dutching.exampleInputs Dutching.emptyState HvD) as [_ HD2].
  destruct (HS SingleMargin.exampleInputs SingleMargin.emptyState HvS) as [_ HS2].
  split; [exact HvD|]. split; [exact HD2|]. split; [exact HvS | exact HS2].
Defined.

(** C5 fails in the variant with a single margin: with full-match rates 1
    and 0, no zero inflation and a split factor of 1/4, the second-half
    matrix is not the one built from the rates times [1 - 1/4]. *)
Lemma calculateAndRender_second_half_counterexample :
  SingleMargin.isValid SingleMargin.exampleInputs = true
  /\ SingleMargin.jointH2
       (SingleMargin.calculateAndRender SingleMargin.exampleInputs SingleMargin.emptyState)
     <> Some (SingleMargin.computeJointDistribution
                (SingleMargin.lambdaHomeFull SingleMargin.exampleInputs
                 * (1 - SingleMargin.halfFactor SingleMargin.exampleInputs))
                (SingleMargin.lambdaAwayFull SingleMargin.exampleInputs
                 * (1 - SingleMargin.halfFactor SingleMargin.exampleInputs))
                (SingleMargin.piHome SingleMargin.exampleInputs)
                (SingleMargin.piAway SingleMargin.exampleInputs) MAX_GOALS).
Proof.
  split; [reflexivity|].
  unfold SingleMargin.calculateAndRender, SingleMargin.exampleInputs.
  cbn [negb SingleMargin.isValid SingleMargin.jointH2 SingleMargin.lambdaHomeFull
       SingleMargin.lambdaAwayFull SingleMargin.piHome SingleMargin.piAway
       SingleMargin.halfFactor].
  intros Heq.
  apply (f_equal (fun o => match o with
                           | Some j => cell (SingleMargin.matrix j) 0 0
                           | None => 0
                           end)) in Heq.
  cbv beta iota in Heq.
  rewrite !computeJointDistribution_cell00 in Heq.
  rewrite <- !exp_plus in Heq. apply exp_inv in Heq. lra.
Qed.

(** ** The compound deriver: the loops *)

Lemma forEach_ext {A S : Type} (body1 body2 : A -> S -> S) xs (s : S) :
  (forall x s, body1 x s = body2 x s) ->
  forEach xs body1 s = forEach xs body2 s.
Proof.
  intros Hb. revert s. induction xs as [|x xs IH]; intros s; [reflexivity|].
  rewrite !forEach_cons, Hb. apply IH.
Qed.

Lemma forEach_skip {A S : Type} (body : A -> S -> S) xs (s : S) :
  (forall x s, body x s = s) -> forEach xs body s = s.
Proof.
  intros Hb. revert s. induction xs as [|x xs IH]; intros s; [reflexivity|].
  rewrite forEach_cons, Hb. apply IH.
Qed.





(** ** The compound deriver: one visit *)

Lemma NoDup_htftKeys : NoDup htftKeys.
Proof. member_by_evaluation. Qed.

Lemma NoDup_STANDARD_LINES : NoDup STANDARD_LINES.
Proof. member_by_evaluation. Qed.

Lemma htftKeyOf_in (q : (nat * nat) * (nat * nat)) : htftKeyOf q ∈ htftKeys.
Proof.
  unfold htftKeyOf, resultOf.
  repeat (destruct (decide _)); member_by_evaluation.
Qed.



(** A loop that alters each key of a duplicate-free list once. *)
Lemma forEach_alter_lookup {V : Type} (F : Q -> V -> V) (ls : list Q)
    (g : gmap Q V) (line : Q) :
  NoDup ls -> line ∈ ls ->
  forEach ls (fun l g => alter (F l) l g) g !! line = F line <$> (g !! line).
Proof.
  intros Hnd. revert g. induction Hnd as [|l ls Hl Hnd IH]; intros g Hin.
  - apply elem_of_nil in Hin. contradiction.
  - rewrite forEach_cons. apply elem_of_cons in Hin as [->|Hin].
    + assert (Hrest : forall g' : gmap Q V, forEach ls (fun l g => alter (F l) l g) g' !! l = g' !! l).
      { clear IH. induction ls as [|l' ls IHls]; intros g'; [reflexivity|].
        rewrite forEach_cons. apply NoDup_cons in Hnd as [_ Hnd].
        rewrite IHls; [|intros Hc; apply Hl; right; exact Hc | exact Hnd].
        apply lookup_alter_ne. intros ->. apply Hl. left. }
      rewrite Hrest. apply lookup_alter_eq.
    + rewrite IH by exact Hin. rewrite lookup_alter_ne; [reflexivity|].
      intros ->. contradiction.
Qed.

(** ** The compound deriver: over and under split every key *)


(** The tables before the loops. *)
Lemma forEach_insert_kept {K V : Type} `{Countable K} (f : K -> V) (ls : list K)
    (g : gmap K V) (k : K) (v : V) :
  (forall l, l ∈ ls -> f l = v) ->
  g !! k = Some v ->
  forEach ls (fun l g => <[l := f l]> g) g !! k = Some v.
Proof.
  revert g. induction ls as [|l ls IH]; intros g Hf Hk; [exact Hk|].
  rewrite forEach_cons. apply IH.
  - intros l' Hl'. apply Hf. right. exact Hl'.
  - destruct (decide (l = k)) as [->|Hne].
    + rewrite lookup_insert_eq. f_equal. apply Hf. left.
    + rewrite lookup_insert_ne by exact Hne. exact Hk.
Qed.

Lemma forEach_insert_lookup {K V : Type} `{Countable K} (f : K -> V) (ls : list K)
    (g : gmap K V) (k : K) (v : V) :
  (forall l, l ∈ ls -> f l = v) ->
  k ∈ ls ->
  forEach ls (fun l g => <[l := f l]> g) g !! k = Some v.
Proof.
  revert g. induction ls as [|l ls IH]; intros g Hf Hk.
  - apply elem_of_nil in Hk. contradiction.
  - rewrite forEach_cons. apply elem_of_cons in Hk as [->|Hk].
    + apply forEach_insert_kept.
      * intros l' Hl'. apply Hf. right. exact Hl'.
      * rewrite lookup_insert_eq. f_equal. apply Hf. left.
    + apply IH; [|exact Hk]. intros l' Hl'. apply Hf. right. exact Hl'.
Qed.



(** ** The compound deriver: skipping zero cells changes nothing *)








(** ** The compound deriver on an example *)



(** * Further properties of the engine *)

(** ** The distribution builder on valid and on degenerate parameters *)






(** ** Grid masses *)

Lemma elem_of_gridCells (n h a : nat) : (h, a) ∈ gridCells n <-> (h < n /\ a < n)%nat.
Proof.
  unfold gridCells, below. rewrite list_elem_of_In, in_prod_iff, <- !list_elem_of_In.
  rewrite !elem_of_seq. lia.
Qed.

(** ** The scan of [deriveMarkets], field by field *)

(** A field that each iteration updates from its own value alone can be
    followed on its own. *)
Lemma forEach_proj {A S T : Type} (proj : S -> T) (body : A -> S -> S) (body' : A -> T -> T)
    xs (s : S) :
  (forall x s, proj (body x s) = body' x (proj s)) ->
  proj (forEach xs body s) = forEach xs body' (proj s).
Proof.
  intros Hstep. revert s. induction xs as [|x xs IH]; intros s; [reflexivity|].
  rewrite !forEach_cons, IH, Hstep. reflexivity.
Qed.








(** ** Score keys *)

Lemma dashFree_pretty_N_go (x : N) (s : string) : dashFree s -> dashFree (pretty_N_go x s).
Proof.
  revert s. induction (N.lt_wf_0 x) as [x _ IH]; intros s Hs.
  assert (x = 0 \/ 0 < x)%N as [->|Hpos] by lia.
  - rewrite pretty_N_go_0. exact Hs.
  - rewrite pretty_N_go_step by exact Hpos. apply IH.
    + apply N.div_lt; [exact Hpos | lia].
    + split; [|exact Hs]. unfold pretty_N_char. repeat case_match; discriminate.
Qed.

Lemma dashFree_pretty_nat (n : nat) : dashFree (pretty n).
Proof.
  unfold pretty, pretty_nat, pretty, pretty_N.
  destruct (decide (N.of_nat n = 0%N)).
  - simpl. split; [discriminate | exact I].
  - apply dashFree_pretty_N_go. exact I.
Qed.

(** Two strings split at their first dash. *)
Lemma dashFree_split (d1 d2 r1 r2 : string) :
  dashFree d1 -> dashFree d2 ->
  d1 +:+ String "-" r1 = d2 +:+ String "-" r2 -> d1 = d2 /\ r1 = r2.
Proof.
  revert d2. induction d1 as [|c1 d1 IH]; intros [|c2 d2] H1 H2 Heq; simpl in *.
  - inversion Heq. split; reflexivity.
  - inversion Heq; subst. destruct H2 as [H2 _]. contradiction.
  - inversion Heq; subst. destruct H1 as [H1 _]. contradiction.
  - inversion Heq; subst. destruct H1 as [_ H1], H2 as [_ H2].
    destruct (IH d2 H1 H2 ltac:(assumption)) as [-> ->]. split; reflexivity.
Qed.

(** The key [`${h}-${a}`] determines the scoreline. *)
Lemma scoreKey_inj (h1 a1 h2 a2 : nat) :
  scoreKey h1 a1 = scoreKey h2 a2 -> h1 = h2 /\ a1 = a2.
Proof.
  unfold scoreKey. intros Heq.
  apply dashFree_split in Heq as [Hh Ha]; try apply dashFree_pretty_nat.
  split; eapply (inj pretty); eassumption.
Qed.

(** A loop of inserts: the entry of a key that is inserted only once. *)
Lemma inserts_lookup_fresh {A V : Type} (key : A -> string) (v : A -> V) (xs : list A)
    (m : gmap string V) (k : string) :
  (forall x, x ∈ xs -> key x <> k) ->
  forEach xs (fun x m => <[key x := v x]> m) m !! k = m !! k.
Proof.
  revert m. induction xs as [|x xs IH]; intros m Hk; [reflexivity|].
  rewrite forEach_cons, IH.
  - apply lookup_insert_ne, Hk. left.
  - intros y Hy. apply Hk. right. exact Hy.
Qed.

Lemma inserts_lookup {A V : Type} `{EqDecision A} (key : A -> string) (v : A -> V) (xs : list A)
    (m : gmap string V) (x0 : A) :
  x0 ∈ xs -> (forall x, x ∈ xs -> key x = key x0 -> x = x0) ->
  forEach xs (fun x m => <[key x := v x]> m) m !! key x0 = Some (v x0).
Proof.
  revert m. induction xs as [|x xs IH]; intros m Hin Hinj.
  - apply elem_of_nil in Hin. contradiction.
  - rewrite forEach_cons.
    assert (Hinj' : forall y, y ∈ xs -> key y = key x0 -> y = x0)
      by (intros y Hy; apply Hinj; right; exact Hy).
    destruct (decide (x0 ∈ xs)) as [Hxs|Hxs].
    + apply IH; assumption.
    + apply elem_of_cons in Hin as [->|Hin]; [|contradiction].
      rewrite inserts_lookup_fresh.
      * apply lookup_insert_eq.
      * intros y Hy Heq. apply Hxs. rewrite <- (Hinj' y Hy Heq). exact Hy.
Qed.

(** ** The market deriver: the remaining entries *)







Lemma Dutching_scan_map (matrix : list (list R)) :
  Dutching.map (Dutching.scanMarkets matrix)
  = forEach (gridCells (length matrix)) (mapStep matrix) ∅.
Proof.
  rewrite Dutching_scan_cells.
  rewrite (forEach_proj Dutching.map _ (mapStep matrix)); reflexivity.
Qed.

Lemma Dutching_derive_keeps_map (j : Dutching.JointDist) :
  Dutching.map (Dutching.deriveMarkets j)
  = Dutching.map (Dutching.scanMarkets (Dutching.matrix j)).
Proof.
  unfold Dutching.deriveMarkets, Dutching.normalise1x2.
  destruct (decide _); reflexivity.
Qed.

Lemma mapStep_lookup (matrix : list (list R)) (n h a : nat) :
  (h < n)%nat -> (a < n)%nat ->
  forEach (gridCells n) (mapStep matrix) ∅ !! scoreKey h a = Some (cell matrix h a).
Proof.
  intros Hh Ha.
  apply (inserts_lookup (fun c : nat * nat => scoreKey c.1 c.2)
           (fun c : nat * nat => cell matrix c.1 c.2) (gridCells n) ∅ (h, a)).
  - apply elem_of_gridCells. split; assumption.
  - intros [h' a'] _ Heq. simpl in Heq. apply scoreKey_inj in Heq as [-> ->]. reflexivity.
Qed.

Lemma square_quarters_pos : (0 < 2)%nat.
Proof. lia. Qed.



(** X12.  The score map.  On a square grid of side [n], the [map] of
    [deriveMarkets] (the variant that keeps one) holds under the key
    ["h-a"] the cell [[h][a]] of the grid, for every [h, a < n], and it
    holds nothing else: distinct scorelines never share a key. *)
Theorem deriveMarkets_score_map (j : Dutching.JointDist) (n : nat) :
  square n (Dutching.matrix j) ->
  forall (key : string) (p : R),
    Dutching.map (Dutching.deriveMarkets j) !! key = Some p
    <-> exists h a : nat, (h < n)%nat /\ (a < n)%nat
                          /\ key = scoreKey h a /\ p = cell (Dutching.matrix j) h a.
Proof.
  intros [Hlen _] key p.
  rewrite Dutching_derive_keeps_map, Dutching_scan_map, Hlen. split.
  - intros Hsome.
    destruct (decide (Exists (fun c : nat * nat => scoreKey c.1 c.2 = key) (gridCells n)))
      as [Hex|Hnex].
    + apply Exists_exists in Hex as ([h a] & Hin & Hkey). simpl in Hkey.
      apply elem_of_gridCells in Hin as [Hh Ha]. exists h, a.
      subst key. rewrite (mapStep_lookup _ n h a Hh Ha) in Hsome.
      injection Hsome as <-. auto.
    + unfold mapStep in Hsome. rewrite inserts_lookup_fresh in Hsome.
      * rewrite lookup_empty in Hsome. discriminate.
      * intros c Hc Heq. apply Hnex, Exists_exists. exists c. split; assumption.
  - intros (h & a & Hh & Ha & -> & ->). apply mapStep_lookup; assumption.
Qed.

Lemma deriveMarkets_score_map_witness :
  let j := {| Dutching.matrix := [[1/4; 1/4]; [1/4; 1/4]]; Dutching.tailProb := 0 |} in
  square 2 (Dutching.matrix j)
  /\ Dutching.map (Dutching.deriveMarkets j) !! "1-0" = Some (1/4).
Proof.
  intros j. split; [exact square_quarters|].
  apply (deriveMarkets_score_map j 2 square_quarters "1-0" (1/4)).
  exists 1%nat, 0%nat. split; [lia|]. split; [lia|]. split; reflexivity.
Defined.

(** ** Reading and validating the form *)




















(** ** The combination markets *)








(** *** 1X2 and goals *)







Lemma forEach_insert_other {K V : Type} `{Countable K} (f : K -> V) (ls : list K)
    (g : gmap K V) (k : K) :
  k ∉ ls -> forEach ls (fun l g => <[l := f l]> g) g !! k = g !! k.
Proof.
  revert g. induction ls as [|l ls IH]; intros g Hk; [reflexivity|].
  rewrite forEach_cons, IH by (intros Hin; apply Hk; right; exact Hin).
  apply lookup_insert_ne. intros ->. apply Hk. left.
Qed.




(** *** Double chance and goals *)











(** ** The final score by goals *)

Lemma insertByProb_perm (x : Dutching.ScoreItem) (l : list Dutching.ScoreItem) :
  Dutching.insertByProb x l ≡ₚ x :: l.
Proof.
  induction l as [|y l IH]; [reflexivity|]. simpl.
  destruct (decide _); [reflexivity|]. rewrite IH. apply Permutation_swap.
Qed.

Lemma sortByProb_perm (l : list Dutching.ScoreItem) : Dutching.sortByProb l ≡ₚ l.
Proof.
  induction l as [|x l IH]; [reflexivity|].
  unfold Dutching.sortByProb in *. simpl. rewrite insertByProb_perm, IH. reflexivity.
Qed.

Lemma insertByProb_sorted (x : Dutching.ScoreItem) (l : list Dutching.ScoreItem) :
  StronglySorted (fun a b => Dutching.prob b <= Dutching.prob a) l ->
  StronglySorted (fun a b => Dutching.prob b <= Dutching.prob a) (Dutching.insertByProb x l).
Proof.
  induction 1 as [|y l Hl IH Hy]; simpl.
  - repeat constructor.
  - destruct (decide _) as [Hle|Hgt].
    + constructor; [constructor; assumption|].
      constructor; [lra|]. eapply Forall_impl; [exact Hy|]. simpl. intros z Hz. lra.
    + constructor; [exact IH|].
      rewrite insertByProb_perm. constructor; [lra | exact Hy].
Qed.

Lemma sortByProb_sorted (l : list Dutching.ScoreItem) :
  StronglySorted (fun a b => Dutching.prob b <= Dutching.prob a) (Dutching.sortByProb l).
Proof.
  induction l as [|x l IH]; [constructor|].
  unfold Dutching.sortByProb in *. simpl. apply insertByProb_sorted, IH.
Qed.

Lemma init_groups_lookup (maxTotal : Z) (t : nat) :
  forEach (upto maxTotal)
    (fun t groups => <[t := []]> groups) (∅ : gmap nat (list Dutching.ScoreItem)) !! t
  = if bool_decide (t ∈ upto maxTotal) then Some [] else None.
Proof.
  case_bool_decide as Ht.
  - apply (forEach_insert_lookup (fun _ : nat => [])); [reflexivity | exact Ht].
  - rewrite (forEach_insert_other (fun _ : nat => [])) by exact Ht. apply lookup_empty.
Qed.

Lemma push_loop (matrix : list (list R)) (cells : list (nat * nat))
    (groups : gmap nat (list Dutching.ScoreItem)) (t : nat) :
  forEach cells
    (fun c groups =>
       alter (fun scores =>
                scores ++ [{| Dutching.score := scoreKey c.1 c.2;
                              Dutching.prob := cell matrix c.1 c.2 |}])
             (c.1 + c.2)%nat groups)
    groups !! t
  = (fun scores =>
       scores ++ ((fun c : nat * nat =>
                     {| Dutching.score := scoreKey c.1 c.2;
                        Dutching.prob := cell matrix c.1 c.2 |})
                    <$> filter (fun c : nat * nat => (c.1 + c.2)%nat = t) cells))
    <$> groups !! t.
Proof.
  revert groups. induction cells as [|c cells IH]; intros groups.
  - rewrite forEach_nil. simpl. destruct (groups !! t); simpl; [|reflexivity].
    rewrite app_nil_r. reflexivity.
  - rewrite forEach_cons, IH. rewrite filter_cons.
    destruct (decide ((c.1 + c.2)%nat = t)) as [Heq|Hne].
    + rewrite Heq at 1. rewrite lookup_alter_eq. destruct (groups !! t); simpl; [|reflexivity].
      rewrite <- app_assoc. reflexivity.
    + rewrite lookup_alter_ne by exact Hne. reflexivity.
Qed.

Lemma deriveFinalScoreByGoals_lookup (j : Dutching.JointDist) (t : nat) :
  Dutching.deriveFinalScoreByGoals j !! t
  = if bool_decide (t ∈ upto ((Z.of_nat (length (Dutching.matrix j)) - 1) * 2))
    then Some (Dutching.sortByProb
                 (scoresWithTotal (Dutching.matrix j) (length (Dutching.matrix j)) t))
    else None.
Proof.
  unfold Dutching.deriveFinalScoreByGoals. cbv zeta.
  rewrite lookup_fmap, forEach_nested.
  rewrite (push_loop (Dutching.matrix j)), init_groups_lookup.
  destruct (bool_decide _); reflexivity.
Qed.

Lemma elem_of_upto (n : Z) (t : nat) : t ∈ upto n <-> (Z.of_nat t <= n)%Z.
Proof. unfold upto. rewrite elem_of_seq. lia. Qed.

Lemma elem_of_scoresWithTotal (matrix : list (list R)) (n t : nat) (item : Dutching.ScoreItem) :
  item ∈ scoresWithTotal matrix n t
  <-> exists h a : nat,
        (h < n)%nat /\ (a < n)%nat /\ (h + a)%nat = t
        /\ item = {| Dutching.score := scoreKey h a; Dutching.prob := cell matrix h a |}.
Proof.
  unfold scoresWithTotal. rewrite list_elem_of_fmap. split.
  - intros ([h a] & -> & Hin). apply list_elem_of_filter in Hin as [Ht Hin].
    apply elem_of_gridCells in Hin as [Hh Ha]. exists h, a. auto.
  - intros (h & a & Hh & Ha & Ht & ->). exists (h, a). split; [reflexivity|].
    apply list_elem_of_filter. split; [exact Ht|]. apply elem_of_gridCells. auto.
Qed.

(** X21.  Final score by goals.  On a square grid of side [n >= 1],
    [deriveFinalScoreByGoals] returns one group for each total
    [0 .. 2 (n - 1)] and none beyond.  The group of [t] holds exactly the
    scorelines ["h-a"] with [h + a = t], each with its cell of the grid, in
    descending order of probability (scorelines of equal probability in the
    order of the scan). *)
Theorem deriveFinalScoreByGoals_groups (j : Dutching.JointDist) (n : nat) :
  square n (Dutching.matrix j) -> (0 < n)%nat ->
  forall t : nat,
    ((t <= 2 * (n - 1))%nat ->
     exists scores : list Dutching.ScoreItem,
       Dutching.deriveFinalScoreByGoals j !! t = Some scores
       /\ scores = Dutching.sortByProb (scoresWithTotal (Dutching.matrix j) n t)
       /\ scores ≡ₚ scoresWithTotal (Dutching.matrix j) n t
       /\ StronglySorted (fun x y => Dutching.prob y <= Dutching.prob x) scores
       /\ (forall item : Dutching.ScoreItem,
             item ∈ scores
             <-> exists h a : nat,
                   (h < n)%nat /\ (a < n)%nat /\ (h + a)%nat = t
                   /\ item = {| Dutching.score := scoreKey h a;
                                Dutching.prob := cell (Dutching.matrix j) h a |}))
    /\ ((2 * (n - 1) < t)%nat -> Dutching.deriveFinalScoreByGoals j !! t = None).
Proof.
  intros Hsq Hn t. pose proof Hsq as [Hlen _].
  rewrite deriveFinalScoreByGoals_lookup, Hlen. split.
  - intros Ht. rewrite bool_decide_eq_true_2 by (apply elem_of_upto; lia).
    eexists. split; [reflexivity|]. split; [reflexivity|].
    split; [apply sortByProb_perm|]. split; [apply sortByProb_sorted|].
    intros item. rewrite sortByProb_perm. apply elem_of_scoresWithTotal.
  - intros Ht. rewrite bool_decide_eq_false_2 by (rewrite elem_of_upto; lia). reflexivity.
Qed.

Lemma deriveFinalScoreByGoals_groups_witness :
  let j := {| Dutching.matrix := [[1/2; 1/4]; [1/4; 0]]; Dutching.tailProb := 0 |} in
  square 2 (Dutching.matrix j) /\ (0 < 2)%nat /\ (1 <= 2 * (2 - 1))%nat
  /\ exists scores : list Dutching.ScoreItem,
       Dutching.deriveFinalScoreByGoals j !! 1%nat = Some scores
       /\ StronglySorted (fun x y => Dutching.prob y <= Dutching.prob x) scores.
Proof.
  intros j.
  assert (Hsq : square 2 (Dutching.matrix j)) by (split; [reflexivity | repeat constructor]).
  assert (Ht : (1 <= 2 * (2 - 1))%nat) by lia.
  split; [exact Hsq|]. split; [exact square_quarters_pos|]. split; [exact Ht|].
  destruct (deriveFinalScoreByGoals_groups j 2 Hsq square_quarters_pos 1) as [Hin _].
  destruct (Hin Ht) as (scores & Hlook & _ & _ & Hsorted & _).
  exists scores. split; [exact Hlook | exact Hsorted].
Defined.

(** ** The half-time / full-time table, entry by entry *)










(** ** Pricing: odds of a loaded probability *)

Lemma getOdds_above (p : R) : 0.0001 < p -> getOdds p = / p /\ 0 < getOdds p < 10000.
Proof.
  intros Hp. unfold getOdds. destruct (decide (p <= 0.0001)) as [Hle|_]; [lra|].
  assert (Hinv : 0 < / p) by (apply Rinv_0_lt_compat; lra).
  assert (Hlt : / p < / 0.0001) by (apply Rinv_lt_contravar; [nra | exact Hp]).
  replace (/ 0.0001) with 10000 in Hlt by lra.
  split; [unfold Rdiv; lra | unfold Rdiv; lra].
Qed.

Lemma getOdds_antitone (p q : R) : 0.0001 < p -> p <= q -> getOdds q <= getOdds p.
Proof.
  intros Hp Hpq.
  destruct (getOdds_above p Hp) as [-> _].
  destruct (getOdds_above q ltac:(lra)) as [-> _].
  apply Rinv_le_contravar; lra.
Qed.

(** X24.  Loading a probability.  Where the renderers price a
    probability [p] directly, as [getOdds(p * (1 + margin/100))] next to
    the fair [getOdds(p)] (the exact-goals table and the scores by goals of
    the first script, the selection panel of both), a margin that is not
    negative never raises the odds of an outcome above the cut-off 0.0001:
    the loaded odds are positive and at most the fair odds.  [getOdds] does
    not increase above the cut-off; odds, when quoted, lie strictly between
    0 and 10000; at or below the cut-off the result is the sentinel 0. *)
Theorem getOdds_loaded_probability (marginPct : R) :
  0 <= marginPct ->
  (forall p : R, 0.0001 < p -> 0 < getOdds (p * (1 + marginPct / 100)) <= getOdds p)
  /\ (forall p q : R, 0.0001 < p -> p <= q -> getOdds q <= getOdds p)
  /\ (forall p : R, (0.0001 < p -> 0 < getOdds p < 10000) /\ (p <= 0.0001 -> getOdds p = 0)).
Proof.
  intros Hm. split; [|split].
  - intros p Hp. assert (Hge : p <= p * (1 + marginPct / 100)) by nra. split.
    + apply getOdds_above. lra.
    + apply getOdds_antitone; assumption.
  - intros p q Hp Hpq. apply getOdds_antitone; assumption.
  - intros p. split.
    + intros Hp. apply getOdds_above, Hp.
    + intros Hp. unfold getOdds. destruct (decide (p <= 0.0001)); [reflexivity | lra].
Qed.

Lemma getOdds_loaded_probability_witness :
  0 <= 10 /\ 0 < getOdds (0.5 * (1 + 10 / 100)) <= getOdds 0.5.
Proof.
  assert (Hm : 0 <= 10) by lra.
  split; [exact Hm|].
  apply (proj1 (getOdds_loaded_probability 10 Hm)). lra.
Defined.

(** * The engine on binary64 numbers: properties *)

Section Binary64Properties.
Import Binary64.
#[local] Open Scope float_scope.

(** ** Not a number *)

Lemma SFeqb_refl (x : spec_float) : x <> S754_nan -> SFeqb x x = true.
Proof.
  intros Hx. unfold SFeqb, SFcompare.
  destruct x as [[]|[]| |[] m e]; try reflexivity; try congruence;
    rewrite Z.compare_refl, Pos.compare_cont_refl; reflexivity.
Qed.

Lemma is_nan_spec (x : float) : is_nan x = true <-> Prim2SF x = S754_nan.
Proof.
  unfold is_nan. rewrite FloatAxioms.eqb_spec, negb_true_iff. split.
  - intros Hne. destruct (Prim2SF x) eqn:E; try reflexivity;
      rewrite SFeqb_refl in Hne by discriminate; discriminate.
  - intros ->. reflexivity.
Qed.

(** A comparison with NaN fails. *)
Lemma ltb_nan (x y : float) : is_nan x = true \/ is_nan y = true -> (x <? y) = false.
Proof.
  rewrite !is_nan_spec, FloatAxioms.ltb_spec. intros [->| ->]; [reflexivity|].
  unfold SFltb, SFcompare. destruct (Prim2SF x) as [[]|[]| |[]]; reflexivity.
Qed.

Lemma leb_nan (x y : float) : is_nan x = true \/ is_nan y = true -> (x <=? y) = false.
Proof.
  rewrite !is_nan_spec, FloatAxioms.leb_spec. intros [->| ->]; [reflexivity|].
  unfold SFleb, SFcompare. destruct (Prim2SF x) as [[]|[]| |[]]; reflexivity.
Qed.

(** An operation on NaN gives NaN. *)
Lemma add_nan (x y : float) : is_nan x = true \/ is_nan y = true -> is_nan (x + y) = true.
Proof.
  rewrite !is_nan_spec, add_spec. intros [->| ->]; [reflexivity|].
  unfold SF64add, SFadd. destruct (Prim2SF x) as [[]|[]| |[]]; reflexivity.
Qed.

Lemma sub_nan (x y : float) : is_nan x = true \/ is_nan y = true -> is_nan (x - y) = true.
Proof.
  rewrite !is_nan_spec, sub_spec. intros [->| ->]; [reflexivity|].
  unfold SF64sub, SFsub. destruct (Prim2SF x) as [[]|[]| |[]]; reflexivity.
Qed.

Lemma div_nan (x y : float) : is_nan x = true \/ is_nan y = true -> is_nan (x / y) = true.
Proof.
  rewrite !is_nan_spec, div_spec. intros [->| ->]; [reflexivity|].
  unfold SF64div, SFdiv. destruct (Prim2SF x) as [[]|[]| |[]]; reflexivity.
Qed.

(** ** Loops *)

Lemma forEach_ext_in {A S : Type} (body1 body2 : A -> S -> S) xs (s : S) :
  (forall x s, x ∈ xs -> body1 x s = body2 x s) ->
  forEach xs body1 s = forEach xs body2 s.
Proof.
  revert s. induction xs as [|x xs IH]; intros s Hb; [reflexivity|].
  rewrite !forEach_cons, Hb by left. apply IH.
  intros y s' Hy. apply Hb. right. exact Hy.
Qed.

(** ** Factorials *)

Lemma factorial_negative (n : Z) : (n < 0)%Z -> factorial n = 1.
Proof. intros Hn. unfold factorial. destruct (decide _); [reflexivity | lia]. Qed.

Lemma factorial_exact_table :
  forallb (fun n => bool_decide (exactValue (factorial (Z.of_nat n))
                                 = Some (inject_Z (exactFactorial n))))
          (seq 0 23) = true.
Proof. vm_compute. reflexivity. Qed.

Lemma factorial_exact (n : nat) :
  (n <= 22)%nat ->
  exactValue (factorial (Z.of_nat n)) = Some (inject_Z (exactFactorial n)).
Proof.
  intros Hn. pose proof factorial_exact_table as Ht.
  rewrite forallb_forall in Ht.
  eapply bool_decide_eq_true_1, Ht, in_seq. lia.
Qed.

Lemma factorial_23 :
  exactValue (factorial 23) = Some (inject_Z 25852016738884978212864)
  /\ exactFactorial 23 = 25852016738884976640000%Z.
Proof. split; vm_compute; reflexivity. Qed.

Lemma factorial_overflow :
  exactValue (factorial 170) <> None /\ factorial 171 = infinity.
Proof. split; vm_compute; [discriminate | reflexivity]. Qed.

(** X1.  [factorial] on binary64 numbers.  It returns 1 for a negative
    argument and exactly [n!] for [0 <= n <= 22]; from 23 on the running
    product is rounded ([factorial(23)] is 25852016738884978212864, and
    [23!] is 25852016738884976640000); [factorial(170)] is still finite and
    [factorial(171)] is [Infinity]. *)
Theorem factorial_binary64 :
  (forall n : Z, (n < 0)%Z -> factorial n = 1)
  /\ (forall n : nat, (n <= 22)%nat ->
        exactValue (factorial (Z.of_nat n)) = Some (inject_Z (exactFactorial n)))
  /\ exactValue (factorial 23) = Some (inject_Z 25852016738884978212864)
  /\ exactFactorial 23 = 25852016738884976640000%Z
  /\ exactValue (factorial 170) <> None
  /\ factorial 171 = infinity.
Proof.
  split; [exact factorial_negative|]. split; [exact factorial_exact|].
  split; [apply factorial_23|]. split; [apply factorial_23|]. exact factorial_overflow.
Qed.

(** ** The distribution builder *)










(** ** The joint matrix builder *)

Lemma length_productRow_binary64 distH distA n i : length (productRow distH distA n i) = n.
Proof. unfold productRow. rewrite length_fmap, length_seq. reflexivity. Qed.

Lemma jointCell_loop_binary64 distH distA i n (M : list (list float)) (t : float) :
  length M = i ->
  forEach (seq 0 n) (jointCell distH distA i) (M ++ [[]], t)
  = (M ++ [productRow distH distA n i],
     forEach (seq 0 n) (fun j acc => acc + (probs distH !!! i) * (probs distA !!! j)) t).
Proof.
  intros <-. induction n as [|n IH].
  - reflexivity.
  - rewrite !seq_S, !forEach_snoc, IH. simpl. unfold jointCell.
    rewrite alter_last, arraySet_end by apply length_productRow_binary64.
    unfold productRow. rewrite seq_S, fmap_app. reflexivity.
Qed.

Lemma jointRow_loop_binary64 distH distA maxGoals m :
  forEach (seq 0 m) (jointRow distH distA maxGoals) ([], 0)
  = (productRow distH distA (Z.to_nat (maxGoals + 1)) <$> seq 0 m,
     forEach (seq 0 m)
       (fun i => forEach (upto maxGoals)
                   (fun j acc => acc + (probs distH !!! i) * (probs distA !!! j))) 0).
Proof.
  induction m as [|m IH].
  - reflexivity.
  - rewrite !seq_S, !forEach_snoc, IH. simpl. unfold jointRow.
    set (M := productRow distH distA (Z.to_nat (maxGoals + 1)) <$> seq 0 m).
    assert (HM : length M = m) by (unfold M; rewrite length_fmap, length_seq; reflexivity).
    rewrite arraySet_end by exact HM. unfold upto.
    rewrite (jointCell_loop_binary64 distH distA m _ M _ HM).
    rewrite fmap_app. reflexivity.
Qed.

Lemma jointGrid_binary64 distH distA maxGoals :
  let n := Z.to_nat (maxGoals + 1) in
  jointGrid distH distA maxGoals
  = (productRow distH distA n <$> seq 0 n, accumulatedProducts distH distA maxGoals).
Proof.
  unfold jointGrid, accumulatedProducts. simpl.
  rewrite <- (forEach_nested
                (fun i j acc => acc + (probs distH !!! i) * (probs distA !!! j))).
  unfold upto at 1 3. apply jointRow_loop_binary64.
Qed.

Lemma jointGrid_cell_binary64 distH distA maxGoals (h a : nat) :
  (h < Z.to_nat (maxGoals + 1))%nat -> (a < Z.to_nat (maxGoals + 1))%nat ->
  cell (jointGrid distH distA maxGoals).1 h a = (probs distH !!! h) * (probs distA !!! a).
Proof.
  intros Hh Ha. rewrite jointGrid_binary64. cbn [fst]. unfold cell.
  rewrite (list_lookup_total_correct _ h
             (productRow distH distA (Z.to_nat (maxGoals + 1)) h)).
  - unfold productRow.
    erewrite list_lookup_total_correct; [reflexivity|].
    rewrite list_lookup_fmap, lookup_seq_lt by exact Ha. reflexivity.
  - rewrite list_lookup_fmap, lookup_seq_lt by exact Hh. reflexivity.
Qed.

Lemma jointGrid_square_binary64 distH distA maxGoals :
  square (Z.to_nat (maxGoals + 1)) (jointGrid distH distA maxGoals).1.
Proof.
  rewrite jointGrid_binary64. cbn [fst]. split.
  - rewrite length_fmap, length_seq. reflexivity.
  - apply Forall_fmap, Forall_forall. intros i _. apply length_productRow_binary64.
Qed.

Lemma jointGrid_total_binary64 distH distA maxGoals :
  (jointGrid distH distA maxGoals).2
  = accumulated (fun _ _ => true) (jointGrid distH distA maxGoals).1.
Proof.
  unfold accumulated.
  destruct (jointGrid_square_binary64 distH distA maxGoals) as [-> _].
  rewrite (jointGrid_binary64 distH distA maxGoals) at 1. cbn [snd].
  unfold accumulatedProducts. fold (below (Z.to_nat (maxGoals + 1))).
  change (list_prod (upto maxGoals) (upto maxGoals))
    with (gridCells (Z.to_nat (maxGoals + 1))).
  apply forEach_ext_in. intros [h a] acc Hc.
  apply elem_of_gridCells in Hc as [Hh Ha]. cbn [fst snd].
  rewrite jointGrid_cell_binary64 by assumption. reflexivity.
Qed.

(** C2, as far as it holds.  For every pair of goal distributions the two
    nested loops of [computeJointDistribution] build a square grid on
    [0..maxGoals] whose cell [[h][a]] is the binary64 product
    [distHome[h] * distAway[a]]; the accumulated total is the binary64 sum of
    these products in the order of the loops, which is the sum of all cells
    in that order, and the tail mass is 1 minus that total.  In both
    variants [computeJointDistribution] returns that grid and that tail for
    the two distributions [computePoissonPMF] gives it. *)
Theorem computeJointDistribution_products_binary64 (maxGoals : Z) :
  (forall distHome distAway : PMF,
     let grid := (jointGrid distHome distAway maxGoals).1 in
     let totalProb := (jointGrid distHome distAway maxGoals).2 in
     square (Z.to_nat (maxGoals + 1)) grid
     /\ (forall h a : nat, (Z.of_nat h <= maxGoals)%Z -> (Z.of_nat a <= maxGoals)%Z ->
           cell grid h a = (probs distHome !!! h) * (probs distAway !!! a))
     /\ totalProb = accumulatedProducts distHome distAway maxGoals
     /\ totalProb = accumulated (fun _ _ => true) grid)
  /\ (forall (Math : MathObject) (lambdaH lambdaA piH piA : float),
        let distHome := computePoissonPMF Math lambdaH maxGoals piH in
        let distAway := computePoissonPMF Math lambdaA maxGoals piA in
        let j1 := Dutching.computeJointDistribution Math lambdaH lambdaA piH piA maxGoals in
        let j2 := SingleMargin.computeJointDistribution Math lambdaH lambdaA piH piA maxGoals in
        Dutching.matrix j1 = (jointGrid distHome distAway maxGoals).1
        /\ Dutching.tailProb j1 = 1 - (jointGrid distHome distAway maxGoals).2
        /\ SingleMargin.matrix j2 = (jointGrid distHome distAway maxGoals).1
        /\ SingleMargin.tailProb j2 = 1 - (jointGrid distHome distAway maxGoals).2
        /\ SingleMargin.distH j2 = distHome
        /\ SingleMargin.distA j2 = distAway).
Proof.
  split.
  - intros distHome distAway grid totalProb. subst grid totalProb.
    split; [apply jointGrid_square_binary64|]. split; [|split].
    + intros h a Hh Ha. apply jointGrid_cell_binary64; lia.
    + rewrite jointGrid_binary64. reflexivity.
    + apply jointGrid_total_binary64.
  - intros Math lambdaH lambdaA piH piA distHome distAway j1 j2.
    subst j1 j2 distHome distAway.
    unfold Dutching.computeJointDistribution, SingleMargin.computeJointDistribution.
    destruct (jointGrid _ _ maxGoals) as [matrix totalProb]. repeat split.
Qed.

(** C2 fails as stated.  For the distributions [0.1, 0.1] and [0.1, 0.3]
    on the grid 0..1 the tail mass the loops return is 0.92, and 1 minus the
    product of the two sums is 0.9199999999999999. *)
Lemma computeJointDistribution_tail_counterexample :
  1 - (jointGrid exampleHome exampleAway 1).2 = 0.92
  /\ 1 - reduceSum (probs exampleHome) * reduceSum (probs exampleAway) = 0.9199999999999999
  /\ (0.92 =? 0.9199999999999999) = false.
Proof. vm_compute. repeat split. Qed.

(** ** The market deriver *)

Lemma Dutching_scan_cells_binary64 (matrix : list (list float)) :
  Dutching.scanMarkets matrix
  = forEach (gridCells (length matrix))
      (fun c => Dutching.marketsCell matrix ((Z.of_nat (length matrix) - 1) * 2) c.1 c.2)
      (Dutching.initMarkets ((Z.of_nat (length matrix) - 1) * 2)).
Proof. unfold Dutching.scanMarkets. apply forEach_nested. Qed.

Lemma SingleMargin_scan_cells_binary64 (matrix : list (list float)) :
  SingleMargin.scanMarkets matrix
  = forEach (gridCells (length matrix))
      (fun c => SingleMargin.marketsCell matrix ((Z.of_nat (length matrix) - 1) * 2) c.1 c.2)
      (SingleMargin.initMarkets ((Z.of_nat (length matrix) - 1) * 2)).
Proof. unfold SingleMargin.scanMarkets. apply forEach_nested. Qed.

Lemma Dutching_scan_binary64 (matrix : list (list float)) :
  let m := Dutching.scanMarkets matrix in
  Dutching.homeWin m = accumulated isHomeWin matrix
  /\ Dutching.draw m = accumulated isDraw matrix
  /\ Dutching.awayWin m = accumulated isAwayWin matrix
  /\ Dutching.bttsYes m = accumulated bothScore matrix.
Proof.
  cbv zeta. rewrite Dutching_scan_cells_binary64. unfold accumulated.
  repeat split.
  - apply (forEach_proj Dutching.homeWin). field_of_scan.
  - apply (forEach_proj Dutching.draw). field_of_scan.
  - apply (forEach_proj Dutching.awayWin). field_of_scan.
  - apply (forEach_proj Dutching.bttsYes). field_of_scan.
Qed.

Lemma SingleMargin_scan_binary64 (matrix : list (list float)) :
  let m := SingleMargin.scanMarkets matrix in
  SingleMargin.homeWin m = accumulated isHomeWin matrix
  /\ SingleMargin.draw m = accumulated isDraw matrix
  /\ SingleMargin.awayWin m = accumulated isAwayWin matrix
  /\ SingleMargin.bttsYes m = accumulated bothScore matrix.
Proof.
  cbv zeta. rewrite SingleMargin_scan_cells_binary64. unfold accumulated.
  repeat split.
  - apply (forEach_proj SingleMargin.homeWin). field_of_scan.
  - apply (forEach_proj SingleMargin.draw). field_of_scan.
  - apply (forEach_proj SingleMargin.awayWin). field_of_scan.
  - apply (forEach_proj SingleMargin.bttsYes). field_of_scan.
Qed.

Lemma Dutching_deriveMarkets_binary64 (j : Dutching.JointDist) :
  let grid := Dutching.matrix j in
  let rawHome := accumulated isHomeWin grid in
  let rawDraw := accumulated isDraw grid in
  let rawAway := accumulated isAwayWin grid in
  let sum1x2 := rawHome + rawDraw + rawAway in
  let m := Dutching.deriveMarkets j in
  Dutching.homeWin m = (if 0 <? sum1x2 then rawHome / sum1x2 else rawHome)
  /\ Dutching.draw m = (if 0 <? sum1x2 then rawDraw / sum1x2 else rawDraw)
  /\ Dutching.awayWin m = (if 0 <? sum1x2 then rawAway / sum1x2 else rawAway)
  /\ Dutching.bttsYes m = accumulated bothScore grid
  /\ Dutching.bttsNo m = 1 - Dutching.bttsYes m.
Proof.
  cbv zeta. unfold Dutching.deriveMarkets, Dutching.normalise1x2.
  destruct (Dutching_scan_binary64 (Dutching.matrix j)) as (Hh & Hd & Ha & Hb).
  cbn [Dutching.setBttsNo Dutching.homeWin Dutching.draw Dutching.awayWin].
  rewrite Hh, Hd, Ha.
  destruct (0 <? _); cbn; rewrite ?Hh, ?Hd, ?Ha, ?Hb; repeat split.
Qed.

Lemma SingleMargin_deriveMarkets_binary64 (j : SingleMargin.JointDist) :
  let grid := SingleMargin.matrix j in
  let rawHome := accumulated isHomeWin grid in
  let rawDraw := accumulated isDraw grid in
  let rawAway := accumulated isAwayWin grid in
  let sum1x2 := rawHome + rawDraw + rawAway in
  let m := SingleMargin.deriveMarkets j in
  SingleMargin.homeWin m = (if 0 <? sum1x2 then rawHome / sum1x2 else rawHome)
  /\ SingleMargin.draw m = (if 0 <? sum1x2 then rawDraw / sum1x2 else rawDraw)
  /\ SingleMargin.awayWin m = (if 0 <? sum1x2 then rawAway / sum1x2 else rawAway)
  /\ SingleMargin.bttsYes m = accumulated bothScore grid
  /\ SingleMargin.bttsNo m = 1 - SingleMargin.bttsYes m.
Proof.
  cbv zeta. unfold SingleMargin.deriveMarkets, SingleMargin.normalise1x2.
  destruct (SingleMargin_scan_binary64 (SingleMargin.matrix j)) as (Hh & Hd & Ha & Hb).
  cbn [SingleMargin.setBttsNo SingleMargin.homeWin SingleMargin.draw SingleMargin.awayWin].
  rewrite Hh, Hd, Ha.
  destruct (0 <? _); cbn; rewrite ?Hh, ?Hd, ?Ha, ?Hb; repeat split.
Qed.

(** C3, as far as it holds.  In both variants [deriveMarkets] accumulates
    the cells of each result and of both sides scoring in the order of the
    scan, with binary64 additions.  When the binary64 sum
    [(rawHome + rawDraw) + rawAway] is positive, [homeWin], [draw] and
    [awayWin] are the three accumulated values each divided by that sum;
    otherwise they are left as accumulated.  [bttsYes] is the accumulated
    value, not renormalised, and [bttsNo] is the binary64 difference
    [1 - bttsYes]. *)
Theorem deriveMarkets_1x2_and_btts_binary64 :
  (forall j : Dutching.JointDist,
     let grid := Dutching.matrix j in
     let rawHome := accumulated isHomeWin grid in
     let rawDraw := accumulated isDraw grid in
     let rawAway := accumulated isAwayWin grid in
     let sum1x2 := rawHome + rawDraw + rawAway in
     let m := Dutching.deriveMarkets j in
     Dutching.homeWin m = (if 0 <? sum1x2 then rawHome / sum1x2 else rawHome)
     /\ Dutching.draw m = (if 0 <? sum1x2 then rawDraw / sum1x2 else rawDraw)
     /\ Dutching.awayWin m = (if 0 <? sum1x2 then rawAway / sum1x2 else rawAway)
     /\ Dutching.bttsYes m = accumulated bothScore grid
     /\ Dutching.bttsNo m = 1 - Dutching.bttsYes m)
  /\ (forall j : SingleMargin.JointDist,
        let grid := SingleMargin.matrix j in
        let rawHome := accumulated isHomeWin grid in
        let rawDraw := accumulated isDraw grid in
        let rawAway := accumulated isAwayWin grid in
        let sum1x2 := rawHome + rawDraw + rawAway in
        let m := SingleMargin.deriveMarkets j in
        SingleMargin.homeWin m = (if 0 <? sum1x2 then rawHome / sum1x2 else rawHome)
        /\ SingleMargin.draw m = (if 0 <? sum1x2 then rawDraw / sum1x2 else rawDraw)
        /\ SingleMargin.awayWin m = (if 0 <? sum1x2 then rawAway / sum1x2 else rawAway)
        /\ SingleMargin.bttsYes m = accumulated bothScore grid
        /\ SingleMargin.bttsNo m = 1 - SingleMargin.bttsYes m).
Proof.
  split; [exact Dutching_deriveMarkets_binary64 | exact SingleMargin_deriveMarkets_binary64].
Qed.

(** C3 fails as stated.  On the grid [[0.1, 0.1], [0.2, 0.6]] the three
    accumulated results add up to 0.9999999999999999, which is positive, and
    after the division the three add up to 1.0000000000000002, in both
    variants. *)
Lemma deriveMarkets_1x2_counterexample :
  let grid := [[0.1; 0.1]; [0.2; 0.6]] in
  let m1 := Dutching.deriveMarkets {| Dutching.matrix := grid; Dutching.tailProb := 0 |} in
  let m2 := SingleMargin.deriveMarkets
              {| SingleMargin.matrix := grid; SingleMargin.tailProb := 0;
                 SingleMargin.distH := exampleHome; SingleMargin.distA := exampleAway |} in
  accumulated isHomeWin grid + accumulated isDraw grid + accumulated isAwayWin grid
  = 0.9999999999999999
  /\ Dutching.homeWin m1 + Dutching.draw m1 + Dutching.awayWin m1 = 1.0000000000000002
  /\ SingleMargin.homeWin m2 + SingleMargin.draw m2 + SingleMargin.awayWin m2
     = 1.0000000000000002
  /\ (1.0000000000000002 =? 1) = false.
Proof.
  cbv zeta.
  destruct (Dutching_deriveMarkets_binary64
              {| Dutching.matrix := [[0.1; 0.1]; [0.2; 0.6]]; Dutching.tailProb := 0 |})
    as (-> & -> & -> & _).
  destruct (SingleMargin_deriveMarkets_binary64
              {| SingleMargin.matrix := [[0.1; 0.1]; [0.2; 0.6]]; SingleMargin.tailProb := 0;
                 SingleMargin.distH := exampleHome; SingleMargin.distA := exampleAway |})
    as (-> & -> & -> & _).
  vm_compute. repeat split.
Qed.

(** ** Margin *)

(** C4, as far as it holds.  [applyMargin] keeps the length of the
    sequence.  With [currentSum] the binary64 sum of the sequence from left
    to right, element [i] of the result is 0 when [currentSum === 0], and
    otherwise the binary64 value of [(ps[i] / currentSum) * (1 + marginPct / 100)]. *)
Theorem applyMargin_rescales_binary64 (ps : list float) (marginPct : float) :
  let currentSum := reduceSum ps in
  let targetSum := 1 + marginPct / 100 in
  length (applyMargin ps marginPct) = length ps
  /\ (forall (i : nat) (p : float), ps !! i = Some p ->
        applyMargin ps marginPct !! i
        = Some (if currentSum =? 0 then 0 else (p / currentSum) * targetSum))
  /\ ((currentSum =? 0) = true ->
        applyMargin ps marginPct = replicate (length ps) 0).
Proof.
  cbv zeta. unfold applyMargin. split; [apply length_fmap|]. split.
  - intros i p Hp. rewrite list_lookup_fmap, Hp. reflexivity.
  - intros ->. induction ps as [|p ps IH]; [reflexivity|].
    rewrite fmap_cons. cbn [length replicate]. f_equal. exact IH.
Qed.

(** C4 fails as stated.  For [0.2, 0.4, 0.4] and a margin of 5 the sum of
    the sequence is 1 and the target is 1.05, and the result is
    [0.21000000000000002, 0.42000000000000004, 0.42000000000000004], whose
    sum is 1.0500000000000003. *)
Lemma applyMargin_sum_counterexample :
  reduceSum [0.2; 0.4; 0.4] = 1
  /\ 1 + 5 / 100 = 1.05
  /\ applyMargin [0.2; 0.4; 0.4] 5
     = [0.21000000000000002; 0.42000000000000004; 0.42000000000000004]
  /\ reduceSum (applyMargin [0.2; 0.4; 0.4] 5) = 1.0500000000000003
  /\ (1.0500000000000003 =? 1.05) = false.
Proof. vm_compute. repeat split. Qed.

(** ** The market deriver: win to nil, clean sheets and exact totals *)

Lemma Dutching_scan_nil_binary64 (matrix : list (list float)) :
  let m := Dutching.scanMarkets matrix in
  Dutching.winToNilHome m = accumulated isWinToNilHome matrix
  /\ Dutching.winToNilAway m = accumulated isWinToNilAway matrix
  /\ Dutching.cleanSheetHome m = accumulated homeKeepsCleanSheet matrix
  /\ Dutching.cleanSheetAway m = accumulated awayKeepsCleanSheet matrix.
Proof.
  cbv zeta. rewrite Dutching_scan_cells_binary64. unfold accumulated.
  repeat split.
  - apply (forEach_proj Dutching.winToNilHome). field_of_scan.
  - apply (forEach_proj Dutching.winToNilAway). field_of_scan.
  - apply (forEach_proj Dutching.cleanSheetHome). field_of_scan.
  - apply (forEach_proj Dutching.cleanSheetAway). field_of_scan.
Qed.

Lemma SingleMargin_scan_nil_binary64 (matrix : list (list float)) :
  let m := SingleMargin.scanMarkets matrix in
  SingleMargin.winToNilHome m = accumulated isWinToNilHome matrix
  /\ SingleMargin.winToNilAway m = accumulated isWinToNilAway matrix
  /\ SingleMargin.cleanSheetHome m = accumulated homeKeepsCleanSheet matrix
  /\ SingleMargin.cleanSheetAway m = accumulated awayKeepsCleanSheet matrix.
Proof.
  cbv zeta. rewrite SingleMargin_scan_cells_binary64. unfold accumulated.
  repeat split.
  - apply (forEach_proj SingleMargin.winToNilHome). field_of_scan.
  - apply (forEach_proj SingleMargin.winToNilAway). field_of_scan.
  - apply (forEach_proj SingleMargin.cleanSheetHome). field_of_scan.
  - apply (forEach_proj SingleMargin.cleanSheetAway). field_of_scan.
Qed.

(** X9.  Win to nil and clean sheets, on binary64 numbers.  In both
    variants [deriveMarkets] returns for [winToNilHome] the cells of the
    scorelines [h > 0, a = 0] added up in the order of the scan, for
    [winToNilAway] those of [a > 0, h = 0], for [cleanSheetHome] those of
    [a = 0] and for [cleanSheetAway] those of [h = 0]; none of the four is
    renormalised.  A side keeps a clean sheet exactly on its wins to nil
    and on 0-0. *)
Theorem deriveMarkets_win_to_nil_and_clean_sheets_binary64 :
  (forall j : Dutching.JointDist,
     let grid := Dutching.matrix j in
     let m := Dutching.deriveMarkets j in
     Dutching.winToNilHome m = accumulated isWinToNilHome grid
     /\ Dutching.winToNilAway m = accumulated isWinToNilAway grid
     /\ Dutching.cleanSheetHome m = accumulated homeKeepsCleanSheet grid
     /\ Dutching.cleanSheetAway m = accumulated awayKeepsCleanSheet grid)
  /\ (forall j : SingleMargin.JointDist,
        let grid := SingleMargin.matrix j in
        let m := SingleMargin.deriveMarkets j in
        SingleMargin.winToNilHome m = accumulated isWinToNilHome grid
        /\ SingleMargin.winToNilAway m = accumulated isWinToNilAway grid
        /\ SingleMargin.cleanSheetHome m = accumulated homeKeepsCleanSheet grid
        /\ SingleMargin.cleanSheetAway m = accumulated awayKeepsCleanSheet grid)
  /\ (forall h a : nat,
        homeKeepsCleanSheet h a = isWinToNilHome h a || isNilNil h a
        /\ awayKeepsCleanSheet h a = isWinToNilAway h a || isNilNil h a
        /\ isWinToNilHome h a && isNilNil h a = false
        /\ isWinToNilAway h a && isNilNil h a = false).
Proof.
  split; [|split].
  - intros j grid m. subst grid m.
    unfold Dutching.deriveMarkets, Dutching.normalise1x2.
    destruct (0 <? _); exact (Dutching_scan_nil_binary64 (Dutching.matrix j)).
  - intros j grid m. subst grid m.
    unfold SingleMargin.deriveMarkets, SingleMargin.normalise1x2.
    destruct (0 <? _); exact (SingleMargin_scan_nil_binary64 (SingleMargin.matrix j)).
  - intros h a.
    unfold homeKeepsCleanSheet, awayKeepsCleanSheet, isWinToNilHome, isWinToNilAway, isNilNil.
    repeat split; repeat case_bool_decide; cbn; first [reflexivity | lia].
Qed.

Lemma initExactTotals_replicate_binary64 (maxTotal : Z) :
  initExactTotals maxTotal = replicate (Z.to_nat (maxTotal + 1)) 0.
Proof.
  unfold initExactTotals, upto. generalize (Z.to_nat (maxTotal + 1)) as n.
  induction n as [|n IH]; [reflexivity|].
  rewrite seq_S, forEach_snoc, IH. simpl.
  rewrite arraySet_end by apply length_replicate.
  symmetry. apply replicate_S_end.
Qed.

Lemma totals_loop_length matrix maxTotal cells (l : list float) :
  length (forEach cells (totalsStep matrix maxTotal) l) = length l.
Proof.
  revert l. induction cells as [|c cells IH]; intros l; [reflexivity|].
  rewrite forEach_cons, IH. unfold totalsStep.
  destruct (decide _); [apply length_alter | reflexivity].
Qed.

(** A bucket of [exactTotals] receives, in the order of the scan, the cells
    of the scorelines with its total. *)
Lemma totals_loop_bucket matrix maxTotal cells (l : list float) (t : nat) (v : float) :
  (Z.of_nat t <= maxTotal)%Z ->
  l !! t = Some v ->
  forEach cells (totalsStep matrix maxTotal) l !! t
  = Some (forEach cells
            (fun c acc => if totalIs t c.1 c.2 then acc + cell matrix c.1 c.2 else acc) v).
Proof.
  intros Ht. revert l v. induction cells as [|c cells IH]; intros l v Hv; [exact Hv|].
  rewrite !forEach_cons. apply IH. unfold totalsStep, totalIs.
  case_bool_decide as Heq.
  - rewrite Heq. destruct (decide _) as [_|Hgt]; [|lia].
    rewrite list_lookup_alter_eq, Hv. reflexivity.
  - destruct (decide _); [|exact Hv].
    rewrite list_lookup_alter_ne by exact Heq. exact Hv.
Qed.

Lemma Dutching_scan_totals_binary64 (matrix : list (list float)) :
  Dutching.exactTotals (Dutching.scanMarkets matrix)
  = forEach (gridCells (length matrix))
      (totalsStep matrix ((Z.of_nat (length matrix) - 1) * 2))
      (initExactTotals ((Z.of_nat (length matrix) - 1) * 2)).
Proof.
  rewrite Dutching_scan_cells_binary64.
  apply (forEach_proj Dutching.exactTotals). reflexivity.
Qed.

Lemma SingleMargin_scan_totals_binary64 (matrix : list (list float)) :
  SingleMargin.exactTotals (SingleMargin.scanMarkets matrix)
  = forEach (gridCells (length matrix))
      (totalsStep matrix ((Z.of_nat (length matrix) - 1) * 2))
      (initExactTotals ((Z.of_nat (length matrix) - 1) * 2)).
Proof.
  rewrite SingleMargin_scan_cells_binary64.
  apply (forEach_proj SingleMargin.exactTotals). reflexivity.
Qed.

Lemma exactTotals_binary64 (matrix : list (list float)) (n : nat) :
  length matrix = n -> (0 < n)%nat ->
  let totals := forEach (gridCells (length matrix))
                  (totalsStep matrix ((Z.of_nat (length matrix) - 1) * 2))
                  (initExactTotals ((Z.of_nat (length matrix) - 1) * 2)) in
  length totals = (2 * n - 1)%nat
  /\ (forall t : nat, (t <= 2 * (n - 1))%nat ->
        totals !! t = Some (accumulated (totalIs t) matrix)).
Proof.
  intros Hlen Hn totals. subst totals. rewrite initExactTotals_replicate_binary64. split.
  - rewrite totals_loop_length, length_replicate. lia.
  - intros t Ht. unfold accumulated. apply totals_loop_bucket; [lia|].
    apply lookup_replicate_2. lia.
Qed.

(** X10.  Exact totals, on binary64 numbers.  On a grid of side [n >= 1],
    [deriveMarkets] (both variants) returns [2 n - 1] buckets, one for each
    total [0 .. 2 (n - 1)]; bucket [t] holds the cells of the scorelines
    with [h + a = t] added up in the order of the scan, and is not
    renormalised. *)
Theorem deriveMarkets_exact_totals_binary64 :
  (forall (j : Dutching.JointDist) (n : nat),
     length (Dutching.matrix j) = n -> (0 < n)%nat ->
     let m := Dutching.deriveMarkets j in
     length (Dutching.exactTotals m) = (2 * n - 1)%nat
     /\ (forall t : nat, (t <= 2 * (n - 1))%nat ->
           Dutching.exactTotals m !! t = Some (accumulated (totalIs t) (Dutching.matrix j))))
  /\ (forall (j : SingleMargin.JointDist) (n : nat),
        length (SingleMargin.matrix j) = n -> (0 < n)%nat ->
        let m := SingleMargin.deriveMarkets j in
        length (SingleMargin.exactTotals m) = (2 * n - 1)%nat
        /\ (forall t : nat, (t <= 2 * (n - 1))%nat ->
              SingleMargin.exactTotals m !! t
              = Some (accumulated (totalIs t) (SingleMargin.matrix j)))).
Proof.
  split; intros j n Hlen Hn m; subst m.
  - unfold Dutching.deriveMarkets, Dutching.normalise1x2.
    destruct (0 <? _); cbn [Dutching.exactTotals Dutching.setBttsNo];
      rewrite Dutching_scan_totals_binary64;
      exact (exactTotals_binary64 (Dutching.matrix j) n Hlen Hn).
  - unfold SingleMargin.deriveMarkets, SingleMargin.normalise1x2.
    destruct (0 <? _); cbn [SingleMargin.exactTotals SingleMargin.setBttsNo];
      rewrite SingleMargin_scan_totals_binary64;
      exact (exactTotals_binary64 (SingleMargin.matrix j) n Hlen Hn).
Qed.

Lemma deriveMarkets_exact_totals_binary64_witness :
  length (Dutching.matrix exampleFirstHalf) = 2%nat /\ (0 < 2)%nat
  /\ length (Dutching.exactTotals (Dutching.deriveMarkets exampleFirstHalf)) = 3%nat
  /\ Dutching.exactTotals (Dutching.deriveMarkets exampleFirstHalf) !! 1%nat
     = Some (accumulated (totalIs 1) (Dutching.matrix exampleFirstHalf)).
Proof.
  assert (Hlen : length (Dutching.matrix exampleFirstHalf) = 2%nat) by reflexivity.
  assert (Hn : (0 < 2)%nat) by lia.
  destruct deriveMarkets_exact_totals_binary64 as [HD _].
  destruct (HD exampleFirstHalf 2%nat Hlen Hn) as [Hl Hb].
  split; [exact Hlen|]. split; [exact Hn|]. split; [exact Hl|]. apply Hb. lia.
Defined.

(** ** The compound deriver *)

Lemma deriveHalfTimeFullTime_visits_binary64 (jointH1 jointH2 : Dutching.JointDist) :
  Dutching.deriveHalfTimeFullTime jointH1 jointH2
  = forEach (cellPairs (length (Dutching.matrix jointH1)))
      (htftVisit (Dutching.matrix jointH1) (Dutching.matrix jointH2))
      {| htft := list_to_map htftInit; htftGoals := htftGoalsInit |}.
Proof.
  unfold Dutching.deriveHalfTimeFullTime, cellPairs.
  set (m1 := Dutching.matrix jointH1). set (m2 := Dutching.matrix jointH2).
  set (size := length m1).
  rewrite (forEach_nested _ (below size) (below size)). fold (gridCells size).
  transitivity
    (forEach (gridCells size)
       (fun c1 => forEach (gridCells size) (fun c2 => htftVisit m1 m2 (c1, c2)))
       {| htft := list_to_map htftInit; htftGoals := htftGoalsInit |});
    [|rewrite forEach_nested; apply forEach_ext; intros [c1 c2] s; reflexivity].
  apply forEach_ext. intros c1 st. cbv beta.
  rewrite (forEach_nested _ (below size) (below size)). fold (gridCells size).
  destruct (cell m1 c1.1 c1.2 =? 0) eqn:Hz.
  - symmetry. apply forEach_skip. intros c2 s. unfold htftVisit. cbn [fst snd].
    rewrite Hz. reflexivity.
  - apply forEach_ext. intros c2 s. unfold htftVisit. cbn [fst snd].
    rewrite Hz. reflexivity.
Qed.

Lemma htftInit_lookup_binary64 (key : string) :
  key ∈ htftKeys -> (list_to_map htftInit : gmap string float) !! key = Some 0.
Proof.
  intros Hkey. apply elem_of_list_to_map_1.
  - exact NoDup_htftKeys.
  - unfold htftKeys in Hkey. apply list_elem_of_fmap in Hkey as [[k v] [-> Hkv]].
    assert (Hv : Forall (fun kv : string * float => kv.2 = 0) htftInit)
      by (repeat constructor).
    rewrite Forall_forall in Hv. specialize (Hv _ Hkv). simpl in Hv. subst v. exact Hkv.
Qed.

(** What a visit does to one key of [htft]. *)
Lemma htftVisit_key_binary64 m1 m2 q st (key : string) (v : float) :
  htft st !! key = Some v ->
  htft (htftVisit m1 m2 q st) !! key
  = Some (let pHT := cell m1 q.1.1 q.1.2 in
          let p2H := cell m2 q.2.1 q.2.2 in
          if (pHT =? 0) || (p2H =? 0) then v
          else if pairKey key q then v + pHT * p2H else v).
Proof.
  intros Hv. unfold htftVisit. cbv zeta.
  destruct (_ || _); [exact Hv|].
  destruct q as [[h1_h h1_a] [h2_h h2_a]]. cbn [fst snd].
  unfold htftAdd. cbn [htft]. unfold pairKey.
  change (resultOf h1_h h1_a +:+ "-" +:+ resultOf (h1_h + h2_h) (h1_a + h2_a))
    with (htftKeyOf ((h1_h, h1_a), (h2_h, h2_a))).
  case_bool_decide as Hk.
  - rewrite Hk, lookup_insert_eq. rewrite (lookup_total_correct _ _ _ Hv). reflexivity.
  - rewrite lookup_insert_ne by exact Hk. exact Hv.
Qed.

Lemma htft_loop_key m1 m2 (key : string) qs st (v : float) :
  htft st !! key = Some v ->
  htft (forEach qs (htftVisit m1 m2) st) !! key
  = Some (forEach qs
            (fun q acc =>
               let pHT := cell m1 q.1.1 q.1.2 in
               let p2H := cell m2 q.2.1 q.2.2 in
               if (pHT =? 0) || (p2H =? 0) then acc
               else if pairKey key q then acc + pHT * p2H else acc) v).
Proof.
  revert st v. induction qs as [|q qs IH]; intros st v Hv; [exact Hv|].
  rewrite !forEach_cons. apply IH. apply htftVisit_key_binary64. exact Hv.
Qed.

Lemma deriveHalfTimeFullTime_key_binary64 (jointH1 jointH2 : Dutching.JointDist)
    (key : string) :
  key ∈ htftKeys ->
  htft (Dutching.deriveHalfTimeFullTime jointH1 jointH2) !! key
  = Some (accumulatedPairs (pairKey key) (Dutching.matrix jointH1) (Dutching.matrix jointH2)).
Proof.
  intros Hkey. rewrite deriveHalfTimeFullTime_visits_binary64.
  apply htft_loop_key. cbn [htft]. apply htftInit_lookup_binary64. exact Hkey.
Qed.

Lemma htftAdd_htftGoals_binary64 h1_h h1_a h2_h h2_a pHT p2H st :
  htftGoals (htftAdd h1_h h1_a h2_h h2_a pHT p2H st)
  = forEach STANDARD_LINES
      (fun line g =>
         alter (alter (bump (h1_h + h2_h + (h1_a + h2_a)) (pHT * p2H) line)
                      (htftKeyOf ((h1_h, h1_a), (h2_h, h2_a)))) line g)
      (htftGoals st).
Proof.
  unfold htftAdd. cbn [htftGoals]. apply forEach_ext. intros line g. unfold bump.
  destruct (totalOver _ line); reflexivity.
Qed.

(** What a visit does to one entry of [htftGoals]. *)
Lemma htftVisit_entry m1 m2 q st (line : Q) (key : string) :
  line ∈ STANDARD_LINES ->
  entry (htftVisit m1 m2 q st) line key
  = (let pHT := cell m1 q.1.1 q.1.2 in
     let p2H := cell m2 q.2.1 q.2.2 in
     if (pHT =? 0) || (p2H =? 0) then entry st line key
     else if pairKey key q
          then bump (q.1.1 + q.2.1 + (q.1.2 + q.2.2)) (pHT * p2H) line <$> entry st line key
          else entry st line key).
Proof.
  intros Hline. unfold htftVisit. cbv zeta.
  destruct (_ || _); [reflexivity|].
  destruct q as [[h1_h h1_a] [h2_h h2_a]]. cbn [fst snd].
  unfold entry. rewrite htftAdd_htftGoals_binary64.
  rewrite (forEach_alter_lookup
             (fun l => alter (bump (h1_h + h2_h + (h1_a + h2_a))
                                   (cell m1 h1_h h1_a * cell m2 h2_h h2_a) l)
                             (htftKeyOf ((h1_h, h1_a), (h2_h, h2_a)))))
    by (exact NoDup_STANDARD_LINES || exact Hline).
  unfold pairKey.
  destruct (htftGoals st !! line) as [tbl|]; cbn [fmap option_fmap option_map mbind option_bind].
  - case_bool_decide as Hk.
    + rewrite Hk, lookup_alter_eq. reflexivity.
    + rewrite lookup_alter_ne by exact Hk. reflexivity.
  - case_bool_decide; reflexivity.
Qed.

Lemma htft_loop_entry m1 m2 (line : Q) (key : string) qs st (ou : OverUnder) :
  line ∈ STANDARD_LINES ->
  entry st line key = Some ou ->
  exists ou' : OverUnder,
    entry (forEach qs (htftVisit m1 m2) st) line key = Some ou'
    /\ over ou'
       = forEach qs
           (fun q acc =>
              let pHT := cell m1 q.1.1 q.1.2 in
              let p2H := cell m2 q.2.1 q.2.2 in
              if (pHT =? 0) || (p2H =? 0) then acc
              else if pairKey key q && pairOver line q then acc + pHT * p2H else acc)
           (over ou)
    /\ under ou'
       = forEach qs
           (fun q acc =>
              let pHT := cell m1 q.1.1 q.1.2 in
              let p2H := cell m2 q.2.1 q.2.2 in
              if (pHT =? 0) || (p2H =? 0) then acc
              else if pairKey key q && negb (pairOver line q) then acc + pHT * p2H else acc)
           (under ou).
Proof.
  intros Hline. revert st ou. induction qs as [|q qs IH]; intros st ou Hou.
  - exists ou. split; [exact Hou|]. split; reflexivity.
  - rewrite !forEach_cons.
    pose proof (htftVisit_entry m1 m2 q st line key Hline) as Hvisit.
    cbv zeta in Hvisit. rewrite Hou in Hvisit. cbv zeta.
    destruct (_ || _); [exact (IH _ _ Hvisit)|].
    destruct (pairKey key q); cbn [andb]; [|exact (IH _ _ Hvisit)].
    cbn [fmap option_fmap option_map] in Hvisit.
    destruct (IH _ _ Hvisit) as (ou' & He & Ho & Hu). exists ou'.
    split; [exact He|]. rewrite Ho, Hu. unfold bump, pairOver.
    destruct (totalOver _ line); cbn [negb over under addOver addUnder]; split; reflexivity.
Qed.

Lemma htftGoalsInit_entry (line : Q) (key : string) :
  line ∈ STANDARD_LINES -> key ∈ htftKeys ->
  entry {| htft := list_to_map htftInit; htftGoals := htftGoalsInit |} line key
  = Some {| over := 0; under := 0 |}.
Proof.
  intros Hline Hkey. unfold entry. cbn [htftGoals]. unfold htftGoalsInit.
  rewrite (forEach_insert_lookup
             (fun _ : Q => forEach htftKeys
                             (fun key tbl => <[key := {| over := 0; under := 0 |}]> tbl) ∅)
             STANDARD_LINES ∅ line _ (fun _ _ => eq_refl) Hline).
  cbn [mbind option_bind].
  apply (forEach_insert_lookup (fun _ : string => {| over := 0; under := 0 |}));
    [reflexivity | exact Hkey].
Qed.

Lemma square_example_halves :
  square 2 (Dutching.matrix exampleFirstHalf) /\ square 2 (Dutching.matrix exampleSecondHalf).
Proof. split; (split; [reflexivity | repeat constructor]). Qed.

(** C6, as far as it holds.  For two half grids of the same side, each of
    the nine entries of [htft] is the binary64 sum, in the order of the four
    nested loops, of the products [pHT * p2H] of the pairs of cells that are
    both different from zero and whose half-time and full-time results give
    that key; every pair of cells has one of the nine keys, so every product
    is added to exactly one entry. *)
Theorem deriveHalfTimeFullTime_keys_binary64 (jointH1 jointH2 : Dutching.JointDist)
    (n : nat) :
  square n (Dutching.matrix jointH1) -> square n (Dutching.matrix jointH2) ->
  let st := Dutching.deriveHalfTimeFullTime jointH1 jointH2 in
  (forall key : string, key ∈ htftKeys ->
     htft st !! key
     = Some (accumulatedPairs (pairKey key)
               (Dutching.matrix jointH1) (Dutching.matrix jointH2)))
  /\ (forall q : (nat * nat) * (nat * nat), htftKeyOf q ∈ htftKeys)
  /\ (forall (q : (nat * nat) * (nat * nat)) (key : string),
        pairKey key q = true <-> key = htftKeyOf q).
Proof.
  intros _ _ st. subst st. split; [|split].
  - intros key Hkey. apply deriveHalfTimeFullTime_key_binary64. exact Hkey.
  - exact htftKeyOf_in.
  - intros q key. unfold pairKey. rewrite bool_decide_eq_true. split; congruence.
Qed.

Lemma deriveHalfTimeFullTime_keys_binary64_witness :
  square 2 (Dutching.matrix exampleFirstHalf)
  /\ square 2 (Dutching.matrix exampleSecondHalf)
  /\ htft (Dutching.deriveHalfTimeFullTime exampleFirstHalf exampleSecondHalf) !! "D-D"
     = Some (accumulatedPairs (pairKey "D-D")
               (Dutching.matrix exampleFirstHalf) (Dutching.matrix exampleSecondHalf)).
Proof.
  destruct square_example_halves as [H1 H2].
  split; [exact H1|]. split; [exact H2|].
  destruct (deriveHalfTimeFullTime_keys_binary64 exampleFirstHalf exampleSecondHalf 2 H1 H2)
    as (Hkeys & _).
  apply Hkeys. member_by_evaluation.
Defined.

(** C6 fails as stated.  The cells of [[0.1, 0.1], [0.1, 0.7]] add up to 1
    and so do the cells of [[0.1, 0.5], [0.1, 0.3]], so the product of the
    two sums is 1; the nine entries of [htft] for these two halves add up to
    0.9999999999999999. *)
Lemma deriveHalfTimeFullTime_sum_counterexample :
  gridSum (Dutching.matrix exampleFirstHalf) * gridSum (Dutching.matrix exampleSecondHalf) = 1
  /\ htftTotal (htft (Dutching.deriveHalfTimeFullTime exampleFirstHalf exampleSecondHalf))
     = 0.9999999999999999
  /\ (0.9999999999999999 =? 1) = false.
Proof. vm_compute. repeat split. Qed.

Lemma deriveHalfTimeFullTime_entry_binary64 (jointH1 jointH2 : Dutching.JointDist)
    (line : Q) (key : string) :
  line ∈ STANDARD_LINES -> key ∈ htftKeys ->
  let st := Dutching.deriveHalfTimeFullTime jointH1 jointH2 in
  let m1 := Dutching.matrix jointH1 in
  let m2 := Dutching.matrix jointH2 in
  exists (tbl : gmap string OverUnder) (ou : OverUnder),
    htftGoals st !! line = Some tbl
    /\ tbl !! key = Some ou
    /\ over ou = accumulatedPairs (fun q => pairKey key q && pairOver line q) m1 m2
    /\ under ou = accumulatedPairs (fun q => pairKey key q && negb (pairOver line q)) m1 m2
    /\ htft st !! key = Some (accumulatedPairs (pairKey key) m1 m2).
Proof.
  intros Hline Hkey st m1 m2. subst st m1 m2.
  pose proof (deriveHalfTimeFullTime_key_binary64 jointH1 jointH2 key Hkey) as Hhtft.
  rewrite deriveHalfTimeFullTime_visits_binary64 in *.
  destruct (htft_loop_entry (Dutching.matrix jointH1) (Dutching.matrix jointH2) line key
              (cellPairs (length (Dutching.matrix jointH1))) _ _
              Hline (htftGoalsInit_entry line key Hline Hkey))
    as (ou & He & Ho & Hu).
  unfold entry in He.
  destruct (htftGoals _ !! line) as [tbl|] eqn:Htbl; [|discriminate].
  exists tbl, ou. cbn [mbind option_bind] in He.
  split; [reflexivity|]. split; [exact He|]. split; [exact Ho|]. split; [exact Hu|].
  exact Hhtft.
Qed.

(** C10, as far as it holds.  For two half grids of the same side, every
    standard line and every one of the nine keys, [htftGoals[line][key]]
    exists; its [over] is the binary64 sum, in the order of the loops, of
    the products of the pairs of that key whose full-time total is above the
    line, its [under] the sum of the products of the other pairs of that
    key, and [htft[key]] the sum of the products of all pairs of that key:
    every product added to [htft[key]] is added to exactly one of [over]
    and [under]. *)
Theorem deriveHalfTimeFullTime_over_under_binary64
    (jointH1 jointH2 : Dutching.JointDist) (n : nat) :
  square n (Dutching.matrix jointH1) -> square n (Dutching.matrix jointH2) ->
  forall (line : Q) (key : string),
    line ∈ STANDARD_LINES -> key ∈ htftKeys ->
    let st := Dutching.deriveHalfTimeFullTime jointH1 jointH2 in
    let m1 := Dutching.matrix jointH1 in
    let m2 := Dutching.matrix jointH2 in
    exists (tbl : gmap string OverUnder) (ou : OverUnder),
      htftGoals st !! line = Some tbl
      /\ tbl !! key = Some ou
      /\ over ou = accumulatedPairs (fun q => pairKey key q && pairOver line q) m1 m2
      /\ under ou = accumulatedPairs (fun q => pairKey key q && negb (pairOver line q)) m1 m2
      /\ htft st !! key = Some (accumulatedPairs (pairKey key) m1 m2).
Proof.
  intros _ _ line key Hline Hkey.
  exact (deriveHalfTimeFullTime_entry_binary64 jointH1 jointH2 line key Hline Hkey).
Qed.

Lemma deriveHalfTimeFullTime_over_under_binary64_witness :
  square 2 (Dutching.matrix exampleFirstHalf)
  /\ square 2 (Dutching.matrix exampleSecondHalf)
  /\ (0.5 : Q) ∈ STANDARD_LINES
  /\ "D-D" ∈ htftKeys
  /\ exists (tbl : gmap string OverUnder) (ou : OverUnder),
       htftGoals (Dutching.deriveHalfTimeFullTime exampleFirstHalf exampleSecondHalf)
         !! (0.5 : Q) = Some tbl
       /\ tbl !! "D-D" = Some ou
       /\ over ou = accumulatedPairs (fun q => pairKey "D-D" q && pairOver 0.5 q)
                      (Dutching.matrix exampleFirstHalf) (Dutching.matrix exampleSecondHalf)
       /\ under ou = accumulatedPairs (fun q => pairKey "D-D" q && negb (pairOver 0.5 q))
                       (Dutching.matrix exampleFirstHalf) (Dutching.matrix exampleSecondHalf).
Proof.
  destruct square_example_halves as [H1 H2].
  assert (Hline : (0.5 : Q) ∈ STANDARD_LINES) by member_by_evaluation.
  assert (Hkey : "D-D" ∈ htftKeys) by member_by_evaluation.
  split; [exact H1|]. split; [exact H2|]. split; [exact Hline|]. split; [exact Hkey|].
  destruct (deriveHalfTimeFullTime_over_under_binary64
              exampleFirstHalf exampleSecondHalf 2 H1 H2 0.5%Q "D-D" Hline Hkey)
    as (tbl & ou & Ht & Hk & Ho & Hu & _).
  exists tbl, ou. split; [exact Ht|]. split; [exact Hk|]. split; [exact Ho | exact Hu].
Defined.

(** C10 fails as stated.  For the halves [[0.1, 0.1], [0.1, 0.7]] and
    [[0.1, 0.5], [0.1, 0.3]], at the line 0.5 the key D-D has [over] 0.31
    and [under] 0.010000000000000002, whose sum is 0.32, and [htft] has
    0.31999999999999995 at D-D. *)
Lemma deriveHalfTimeFullTime_over_under_counterexample :
  let st := Dutching.deriveHalfTimeFullTime exampleFirstHalf exampleSecondHalf in
  exists (tbl : gmap string OverUnder) (ou : OverUnder),
    htftGoals st !! (0.5 : Q) = Some tbl
    /\ tbl !! "D-D" = Some ou
    /\ over ou = 0.31
    /\ under ou = 0.010000000000000002
    /\ over ou + under ou = 0.32
    /\ htft st !! "D-D" = Some 0.31999999999999995
    /\ (0.32 =? 0.31999999999999995) = false.
Proof.
  assert (Hline : (0.5 : Q) ∈ STANDARD_LINES) by member_by_evaluation.
  assert (Hkey : "D-D" ∈ htftKeys) by member_by_evaluation.
  destruct (deriveHalfTimeFullTime_entry_binary64
              exampleFirstHalf exampleSecondHalf 0.5%Q "D-D" Hline Hkey)
    as (tbl & ou & Ht & Hk & Ho & Hu & Hh).
  exists tbl, ou. split; [exact Ht|]. split; [exact Hk|].
  rewrite Ho, Hu, Hh. vm_compute. repeat split.
Qed.

(** ** Reading the form *)

Lemma Dutching_getInputs_supremacy_binary64 (form : Dutching.Form) :
  Dutching.mode form <> "xg" ->
  let inputs := Dutching.getInputs form in
  let exp := Dutching.expectancy form in
  let sup := Dutching.supremacy form in
  ((exp <=? 0) = true ->
     Dutching.isValid inputs = false
     /\ Dutching.lambdaHomeFull inputs = 0 /\ Dutching.lambdaAwayFull inputs = 0)
  /\ ((exp <=? 0) = false ->
        Dutching.lambdaHomeFull inputs = (exp + sup) / 2
        /\ Dutching.lambdaAwayFull inputs = (exp - sup) / 2
        /\ (Dutching.useZip form = false ->
              Dutching.isValid inputs
              = negb (((exp + sup) / 2 <? 0) || ((exp - sup) / 2 <? 0)))).
Proof.
  intros Hmode. cbv zeta. open_getInputs_binary64.
  destruct (decide (Dutching.mode form = "xg")) as [Hxg|_]; [contradiction|].
  split; intros Hexp; rewrite Hexp.
  - destruct (Dutching.useZip form); [destruct ((_ <? 0) || (1 <? _) || (_ <? 0) || (1 <? _))|]; repeat split.
  - destruct (((_ + _) / 2 <? 0) || _) eqn:Hneg;
      (destruct (Dutching.useZip form); [destruct ((_ <? 0) || (1 <? _) || (_ <? 0) || (1 <? _))|]);
      repeat split; try reflexivity; intros ?; first [discriminate | reflexivity].
Qed.

Lemma SingleMargin_getInputs_supremacy_binary64 (form : SingleMargin.Form) :
  SingleMargin.mode form <> "xg" ->
  let inputs := SingleMargin.getInputs form in
  let exp := SingleMargin.expectancy form in
  let sup := SingleMargin.supremacy form in
  ((exp <=? 0) = true ->
     SingleMargin.isValid inputs = false
     /\ SingleMargin.lambdaHomeFull inputs = 0 /\ SingleMargin.lambdaAwayFull inputs = 0)
  /\ ((exp <=? 0) = false ->
        SingleMargin.lambdaHomeFull inputs = (exp + sup) / 2
        /\ SingleMargin.lambdaAwayFull inputs = (exp - sup) / 2
        /\ (SingleMargin.useZip form = false ->
              SingleMargin.isValid inputs
              = negb (((exp + sup) / 2 <? 0) || ((exp - sup) / 2 <? 0)))).
Proof.
  intros Hmode. cbv zeta. open_getInputs_binary64.
  destruct (decide (SingleMargin.mode form = "xg")) as [Hxg|_]; [contradiction|].
  split; intros Hexp; rewrite Hexp.
  - destruct (SingleMargin.useZip form); [destruct ((_ <? 0) || (1 <? _) || (_ <? 0) || (1 <? _))|]; repeat split.
  - destruct (((_ + _) / 2 <? 0) || _) eqn:Hneg;
      (destruct (SingleMargin.useZip form); [destruct ((_ <? 0) || (1 <? _) || (_ <? 0) || (1 <? _))|]);
      repeat split; try reflexivity; intros ?; first [discriminate | reflexivity].
Qed.

(** The rates of a form whose expectancy is NaN. *)
Lemma nan_rates (exp sup : float) :
  is_nan exp = true ->
  (exp <=? 0) = false
  /\ is_nan ((exp + sup) / 2) = true /\ is_nan ((exp - sup) / 2) = true
  /\ ((exp + sup) / 2 <? 0) || ((exp - sup) / 2 <? 0) = false.
Proof.
  intros Hexp.
  assert (H1 : is_nan ((exp + sup) / 2) = true) by (apply div_nan; left; apply add_nan; auto).
  assert (H2 : is_nan ((exp - sup) / 2) = true) by (apply div_nan; left; apply sub_nan; auto).
  split; [apply leb_nan; auto|]. split; [exact H1|]. split; [exact H2|].
  rewrite !ltb_nan by auto. reflexivity.
Qed.

(** X16.  Supremacy and expectancy, on binary64 numbers.  Outside xG mode
    [getInputs] (both variants) rejects the form and leaves both rates 0
    when the test [exp <= 0] succeeds; when it fails the rates are the
    binary64 values of [(exp + sup) / 2] and [(exp - sup) / 2], whether or
    not the form is then accepted.  An expectancy field that does not parse
    gives NaN, which fails every test: without ZIP such a form is accepted,
    and both rates are NaN. *)
Theorem getInputs_supremacy_expectancy_binary64 :
  (forall form : Dutching.Form,
     Dutching.mode form <> "xg" ->
     let inputs := Dutching.getInputs form in
     let exp := Dutching.expectancy form in
     let sup := Dutching.supremacy form in
     ((exp <=? 0) = true ->
        Dutching.isValid inputs = false
        /\ Dutching.lambdaHomeFull inputs = 0 /\ Dutching.lambdaAwayFull inputs = 0)
     /\ ((exp <=? 0) = false ->
           Dutching.lambdaHomeFull inputs = (exp + sup) / 2
           /\ Dutching.lambdaAwayFull inputs = (exp - sup) / 2)
     /\ (is_nan exp = true -> Dutching.useZip form = false ->
           Dutching.isValid inputs = true
           /\ is_nan (Dutching.lambdaHomeFull inputs) = true
           /\ is_nan (Dutching.lambdaAwayFull inputs) = true))
  /\ (forall form : SingleMargin.Form,
        SingleMargin.mode form <> "xg" ->
        let inputs := SingleMargin.getInputs form in
        let exp := SingleMargin.expectancy form in
        let sup := SingleMargin.supremacy form in
        ((exp <=? 0) = true ->
           SingleMargin.isValid inputs = false
           /\ SingleMargin.lambdaHomeFull inputs = 0
           /\ SingleMargin.lambdaAwayFull inputs = 0)
        /\ ((exp <=? 0) = false ->
              SingleMargin.lambdaHomeFull inputs = (exp + sup) / 2
              /\ SingleMargin.lambdaAwayFull inputs = (exp - sup) / 2)
        /\ (is_nan exp = true -> SingleMargin.useZip form = false ->
              SingleMargin.isValid inputs = true
              /\ is_nan (SingleMargin.lambdaHomeFull inputs) = true
              /\ is_nan (SingleMargin.lambdaAwayFull inputs) = true)).
Proof.
  split; intros form Hmode inputs exp sup; subst inputs exp sup.
  - destruct (Dutching_getInputs_supremacy_binary64 form Hmode) as [Hrej Hset].
    split; [exact Hrej|]. split.
    + intros Hexp. destruct (Hset Hexp) as (Hh & Ha & _). split; assumption.
    + intros Hnan Hzip.
      destruct (nan_rates _ (Dutching.supremacy form) Hnan) as (Hexp & Hh & Ha & Htest).
      destruct (Hset Hexp) as (-> & -> & Hvalid).
      rewrite (Hvalid Hzip), Htest. repeat split; assumption.
  - destruct (SingleMargin_getInputs_supremacy_binary64 form Hmode) as [Hrej Hset].
    split; [exact Hrej|]. split.
    + intros Hexp. destruct (Hset Hexp) as (Hh & Ha & _). split; assumption.
    + intros Hnan Hzip.
      destruct (nan_rates _ (SingleMargin.supremacy form) Hnan) as (Hexp & Hh & Ha & Htest).
      destruct (Hset Hexp) as (-> & -> & Hvalid).
      rewrite (Hvalid Hzip), Htest. repeat split; assumption.
Qed.

Lemma getInputs_supremacy_expectancy_binary64_witness :
  Dutching.mode Dutching.emptyExpectancy <> "xg"
  /\ is_nan (Dutching.expectancy Dutching.emptyExpectancy) = true
  /\ Dutching.useZip Dutching.emptyExpectancy = false
  /\ Dutching.isValid (Dutching.getInputs Dutching.emptyExpectancy) = true
  /\ is_nan (Dutching.lambdaHomeFull (Dutching.getInputs Dutching.emptyExpectancy)) = true.
Proof.
  assert (Hmode : Dutching.mode Dutching.emptyExpectancy <> "xg") by discriminate.
  assert (Hnan : is_nan (Dutching.expectancy Dutching.emptyExpectancy) = true) by reflexivity.
  assert (Hzip : Dutching.useZip Dutching.emptyExpectancy = false) by reflexivity.
  destruct getInputs_supremacy_expectancy_binary64 as [HD _].
  destruct (HD Dutching.emptyExpectancy Hmode) as (_ & _ & Hacc).
  destruct (Hacc Hnan Hzip) as (Hvalid & Hh & _).
  split; [exact Hmode|]. split; [exact Hnan|]. split; [exact Hzip|].
  split; [exact Hvalid | exact Hh].
Defined.

End Binary64Properties.
